(** * PDF-extractor-vigitrust: the web front ends, the convert-pdf route and
      the extraction core

    The development embeds
    - [floating-notification/app/api/convert-pdf/route.ts] (the [POST]
      handler of the demo conversion endpoint),
    - [pci-extractor-web/src/components/pdf-upload-form/index.tsx] and the
      stand-alone page that carries the same [handleFiles],
    - the page with [processFile], [downloadJSON] and [downloadCSV],
    - the language detector and the requirement extractor of the Python
      backend, which the front ends call through [/api/extract].

    JavaScript strings are embedded as [string]; one [ascii] stands for one
    character of the source string. The values of a query, which the
    download handler copies into a header, are embedded by their UTF-16
    code units. *)

From Stdlib Require Import String Ascii List ZArith QArith Bool Arith.
From Stdlib Require Import Qround DecimalString.
Import ListNotations.

Local Close Scope Q_scope.
Local Open Scope list_scope.
Local Open Scope string_scope.

(** ** Exceptions, promises and the handler monad

    Both handlers are [async] functions whose body is one [try]/[catch].
    A computation runs over a world [W], may change it, and either returns
    or throws; what it did to the world before throwing stays done. *)

Module Eff.

(** What a [catch (error)] clause can receive: an [Error] object with its
    [message], or some other thrown value. *)
Inductive exn : Type :=
| ErrorObj (message : string)
| NonError.

Inductive outcome (A : Type) : Type :=
| Done (a : A)
| Raise (e : exn).
Arguments Done {A} a.
Arguments Raise {A} e.

Definition M (W A : Type) : Type := W -> outcome A * W.

Definition ret {W A} (a : A) : M W A := fun w => (Done a, w).

Definition bind {W A B} (m : M W A) (k : A -> M W B) : M W B :=
  fun w =>
    match m w with
    | (Done a, w') => k a w'
    | (Raise e, w') => (Raise e, w')
    end.

Definition throw {W A} (e : exn) : M W A := fun w => (Raise e, w).

Definition try_catch {W A} (m : M W A) (h : exn -> M W A) : M W A :=
  fun w =>
    match m w with
    | (Done a, w') => (Done a, w')
    | (Raise e, w') => h e w'
    end.

Definition gets {W A} (f : W -> A) : M W A := fun w => (Done (f w), w).

Definition modify {W} (f : W -> W) : M W unit := fun w => (Done tt, f w).

(** [if (c) return r] followed by the rest of the body. *)
Definition return_if {W A} (c : bool) (r : M W A) (rest : M W A) : M W A :=
  if c then r else rest.

End Eff.

Declare Scope eff_scope.
Delimit Scope eff_scope with eff.
Notation "x <- m ;; k" := (Eff.bind m (fun x => k))
  (at level 61, m at next level, right associativity) : eff_scope.
Notation "m ;;; k" := (Eff.bind m (fun _ => k))
  (at level 61, right associativity) : eff_scope.

(** ** String helpers shared by the handlers *)

Module Js.

(** [Array.prototype.join]. *)
Fixpoint join (sep : string) (parts : list string) : string :=
  match parts with
  | [] => ""
  | [p] => p
  | p :: rest => p ++ sep ++ join sep rest
  end.

(** [s.replace(/[class]/g, by)]: every character of the class is
    replaced, the others are kept. *)
Fixpoint replace_class (cls : ascii -> bool) (by_ : string) (s : string)
  : string :=
  match s with
  | EmptyString => EmptyString
  | String c rest =>
      if cls c then by_ ++ replace_class cls by_ rest
      else String c (replace_class cls by_ rest)
  end.

(** [s.slice(0, n)] for [0 <= n]. *)
Definition slice0 (n : nat) (s : string) : string := substring 0 n s.

(** [x || ''] on a string: the empty string is the only falsy string. *)
Definition or_empty (s : string) : string :=
  if (s =? "")%string then "" else s.

(** Decimal rendering of an integer inside a template literal. *)
Definition of_Z (z : Z) : string := NilZero.string_of_int (Z.to_int z).

Definition is_digit (c : ascii) : bool :=
  let n := nat_of_ascii c in (48 <=? n)%nat && (n <=? 57)%nat.
Definition is_upper (c : ascii) : bool :=
  let n := nat_of_ascii c in (65 <=? n)%nat && (n <=? 90)%nat.
Definition is_lower (c : ascii) : bool :=
  let n := nat_of_ascii c in (97 <=? n)%nat && (n <=? 122)%nat.

End Js.

(** ** floating-notification/app/api/convert-pdf/route.ts *)

Module ConvertPdf.
Import Eff.
Local Open Scope eff_scope.

Record File : Type := {
  name : string;
  type : string;
  bytes : string
}.

(** A [FormData] entry is a string or a [File]. *)
Inductive FormDataEntryValue : Type :=
| StringEntry (s : string)
| FileEntry (f : File).

Definition FormData : Type := list (string * FormDataEntryValue).

(** [request.formData()] rejects when the body is not form data. *)
Record NextRequest : Type := {
  form : option FormData
}.

Inductive TimerAction : Type :=
| Unlink (filepath : string).

(** The server side state the handler reads and writes. [fs_denied p]
    tells that the file system refuses to create or write [p]. *)
Record World : Type := {
  cwd : string;
  dirs : list string;
  files : list (string * string);
  fs_denied : string -> bool;
  clock : Z;
  timers : list (Z * TimerAction);
  console : list string
}.

Inductive Body : Type :=
| ErrorBody (error : string)
| ConversionBody (filename : string) (images : list string)
    (downloadUrl : string).

Record NextResponse : Type := {
  status : Z;
  body : Body
}.

(** [NextResponse.json(body, { status })]; the status defaults to 200. *)
Definition json_response (b : Body) (st : option Z) : NextResponse :=
  {| status := match st with Some s => s | None => 200%Z end; body := b |}.

Definition images_of (r : NextResponse) : option (list string) :=
  match body r with
  | ConversionBody _ imgs _ => Some imgs
  | ErrorBody _ => None
  end.

(** [formData.get(key)]: the first entry of that name, or [null]. *)
Fixpoint formData_get (fd : FormData) (key : string)
  : option FormDataEntryValue :=
  match fd with
  | [] => None
  | (k, v) :: rest => if (k =? key)%string then Some v else formData_get rest key
  end.

(** [!file]: [null] and the empty string are falsy. *)
Definition not_file (file : option FormDataEntryValue) : bool :=
  match file with
  | None => true
  | Some (StringEntry s) => (s =? "")%string
  | Some (FileEntry _) => false
  end.

(** [file.type !== "application/pdf"]; a string entry has no [type]. *)
Definition type_differs (file : option FormDataEntryValue) (mime : string)
  : bool :=
  match file with
  | Some (FileEntry f) => negb (type f =? mime)%string
  | _ => true
  end.

(** [path.join] on segments that need no normalising. *)
Definition join (segments : list string) : string := Js.join "/" segments.

Definition request_formData (request : NextRequest) : M World FormData :=
  match form request with
  | Some fd => ret fd
  | None => throw (ErrorObj "Failed to parse body as FormData.")
  end.

Definition existsSync (p : string) : M World bool :=
  gets (fun w => existsb (String.eqb p) (dirs w)).

Definition mkdir (p : string) : M World unit :=
  fun w =>
    if fs_denied w p then (Raise (ErrorObj "EACCES: permission denied, mkdir"), w)
    else (Done tt,
          {| cwd := cwd w; dirs := p :: dirs w; files := files w;
             fs_denied := fs_denied w; clock := clock w;
             timers := timers w; console := console w |}).

Definition writeFile (p : string) (data : string) : M World unit :=
  fun w =>
    if fs_denied w p then (Raise (ErrorObj "EACCES: permission denied, open"), w)
    else (Done tt,
          {| cwd := cwd w; dirs := dirs w; files := (p, data) :: files w;
             fs_denied := fs_denied w; clock := clock w;
             timers := timers w; console := console w |}).

Definition Date_now : M World Z := gets clock.

Definition setTimeout (action : TimerAction) (ms : Z) : M World unit :=
  modify (fun w =>
    {| cwd := cwd w; dirs := dirs w; files := files w;
       fs_denied := fs_denied w; clock := clock w;
       timers := timers w ++ [(ms, action)]; console := console w |}).

Definition console_error (msg : string) : M World unit :=
  modify (fun w =>
    {| cwd := cwd w; dirs := dirs w; files := files w;
       fs_denied := fs_denied w; clock := clock w;
       timers := timers w; console := console w ++ [msg] |}).

(** The class [[^a-zA-Z0-9.-]] of the file name clean-up. *)
Definition unsafe_char (c : ascii) : bool :=
  negb (Js.is_lower c || Js.is_upper c || Js.is_digit c
        || Ascii.eqb c "." || Ascii.eqb c "-").

Definition mockImages : list string :=
  [ "/placeholder.svg?height=400&width=300&text=Page 1";
    "/placeholder.svg?height=400&width=300&text=Page 2";
    "/placeholder.svg?height=400&width=300&text=Page 3" ].

Definition uploadsDir_of (w : World) : string :=
  join [cwd w; "public"; "uploads"].

Definition filename_of (timestamp : Z) (f : File) : string :=
  Js.of_Z timestamp ++ "-" ++ Js.replace_class unsafe_char "_" (name f).

(** The part of [POST] after the two checks, for the [File] they let
    through. *)
Definition convert (f : File) : M World NextResponse :=
  uploadsDir <- gets uploadsDir_of ;;
  present <- existsSync uploadsDir ;;
  (if negb present then mkdir uploadsDir else ret tt) ;;;
  timestamp <- Date_now ;;
  let filename := filename_of timestamp f in
  let filepath := join [uploadsDir; filename] in
  writeFile filepath (bytes f) ;;;
  setTimeout (Unlink filepath) 60000 ;;;
  ret (json_response
         (ConversionBody (name f) mockImages
            ("/api/download-images?id=" ++ Js.of_Z timestamp))
         None).

Definition POST (request : NextRequest) : M World NextResponse :=
  try_catch
    (formData <- request_formData request ;;
     let file := formData_get formData "pdf" in
     return_if (not_file file)
       (ret (json_response (ErrorBody "Aucun fichier fourni") (Some 400%Z)))
     (return_if (type_differs file "application/pdf")
       (ret (json_response (ErrorBody "Le fichier doit être un PDF") (Some 400%Z)))
     (match file with
      | Some (FileEntry f) => convert f
      | _ => throw NonError (* not reached: the checks let only files through *)
      end)))
    (fun error =>
       console_error "Conversion error:" ;;;
       ret (json_response (ErrorBody "Erreur lors de la conversion") (Some 500%Z))).

(** A valid PDF POST: the form has a [pdf] entry that is a file of
    MIME type [application/pdf]. *)
Definition valid_pdf_post (request : NextRequest) (f : File) : Prop :=
  exists fd, form request = Some fd
             /\ formData_get fd "pdf" = Some (FileEntry f)
             /\ type f = "application/pdf".

(** Where [POST] saves the upload of [f] when it runs in [w]. *)
Definition filepath_of (w : World) (f : File) : string :=
  join [uploadsDir_of w; filename_of (clock w) f].

(** The file system lets [POST] save [f]: the uploads directory is there
    or may be created, and the file may be written. *)
Definition saves (w : World) (f : File) : bool :=
  (existsb (String.eqb (uploadsDir_of w)) (dirs w)
   || negb (fs_denied w (uploadsDir_of w)))
  && negb (fs_denied w (filepath_of w f)).

Definition converted (w : World) (f : File) : NextResponse :=
  {| status := 200;
     body := ConversionBody (name f) mockImages
               ("/api/download-images?id=" ++ Js.of_Z (clock w)) |}.

Definition conversion_failed : NextResponse :=
  {| status := 500; body := ErrorBody "Erreur lors de la conversion" |}.

(** Inputs the checks below run on. *)
Definition sample_pdf : File :=
  {| name := "rapport final.pdf"; type := "application/pdf";
     bytes := "%PDF-1.7" |}.

Definition other_pdf : File :=
  {| name := "autre.pdf"; type := "application/pdf"; bytes := "%PDF-1.4 x" |}.

Definition sample_png : File :=
  {| name := "photo.png"; type := "image/png"; bytes := "PNG" |}.

Definition post_of (f : File) : NextRequest :=
  {| form := Some [("pdf", FileEntry f)] |}.

Definition empty_post : NextRequest := {| form := Some [] |}.

Definition fresh_world : World :=
  {| cwd := "/app"; dirs := []; files := []; fs_denied := fun _ => false;
     clock := 1700000000000; timers := []; console := [] |}.

(** A deployment whose file system is read-only. *)
Definition readonly_world : World :=
  {| cwd := "/var/task"; dirs := []; files := []; fs_denied := fun _ => true;
     clock := 1700000000000; timers := []; console := [] |}.

End ConvertPdf.

(** ** What the front ends exchange with [/api/extract] *)

Module Api.

(** A browser [File] as the handlers look at it. *)
Record File : Type := {
  name : string;
  type : string;
  size : Z
}.

(** [{req_num: string, text: string, tests: string[], guidance: string}],
    the element type of [extractedData]. *)
Record Requirement : Type := {
  req_num : string;
  text : string;
  tests : list string;
  guidance : string
}.

(** [data.summary.language_detection]; [code] may be missing. The
    object's [name] is [lang_name] here, [File] has a [name] too. *)
Record LanguageInfo : Type := {
  code : option string;
  lang_name : string;
  name_en : string;
  extractor : string;
  confidence_percentage : string
}.

Record Summary : Type := {
  total : Z;
  with_tests : Z;
  with_guidance : Z;
  total_tests : Z;
  language_detection : option LanguageInfo
}.

(** The parsed body of a response, in the shape the backend contract
    gives it: a missing or [null] property is [None]. *)
Record Payload : Type := {
  error : option string;
  requirements : option (list Requirement);
  summary : option Summary
}.

Record Response : Type := {
  ok : bool;
  statusText : string;
  json : Eff.outcome Payload
}.

Record Request : Type := {
  url : string;
  method : string;
  body : File
}.

(** [fetch] resolves with a response or rejects. *)
Definition Network : Type := Request -> Eff.outcome Response.

(** [process.env.NODE_ENV === 'development' ? ... : ...] *)
Definition apiUrl (node_env : string) : string :=
  if (node_env =? "development")%string
  then "http://localhost:8000/api/extract"
  else "/api/extract".

(** [v || fallback] where [v] is a string or missing. *)
Definition or_else (v : option string) (fallback : string) : string :=
  match v with
  | Some s => if (s =? "")%string then fallback else s
  | None => fallback
  end.

End Api.

(** ** pci-extractor-web/src/components/pdf-upload-form/index.tsx

    The stand-alone page whose [Home] component carries [handleFiles] has
    the same body, quote style apart; one embedding serves both. *)

Module UploadForm.
Import Eff Api.
Local Open Scope eff_scope.

Inductive State : Type := Idle | Uploading | Processing | Success | Error.

Record ExtractionResult : Type := {
  filename : string;
  result_requirements : list Requirement;
  result_summary : option Summary
}.

(** The callback of the [setTimeout] calls: [setError(undefined)] then
    [setState("idle")]. *)
Inductive TimerAction : Type := ClearError.

(** The component's hooks, the pending timers, the requests sent so far
    and the environment [handleFiles] runs in. *)
Record World : Type := {
  state : State;
  error : option string;
  result : option ExtractionResult;
  timers : list (Z * TimerAction);
  requests : list Request;
  console : list string;
  node_env : string;
  network : Network
}.

Definition setState (s : State) : M World unit :=
  modify (fun w =>
    {| state := s; error := error w; result := result w;
       timers := timers w; requests := requests w; console := console w;
       node_env := node_env w; network := network w |}).

Definition setError (e : option string) : M World unit :=
  modify (fun w =>
    {| state := state w; error := e; result := result w;
       timers := timers w; requests := requests w; console := console w;
       node_env := node_env w; network := network w |}).

Definition setResult (r : option ExtractionResult) : M World unit :=
  modify (fun w =>
    {| state := state w; error := error w; result := r;
       timers := timers w; requests := requests w; console := console w;
       node_env := node_env w; network := network w |}).

Definition setTimeout (a : TimerAction) (ms : Z) : M World unit :=
  modify (fun w =>
    {| state := state w; error := error w; result := result w;
       timers := timers w ++ [(ms, a)]; requests := requests w;
       console := console w;
       node_env := node_env w; network := network w |}).

Definition console_error (msg : string) : M World unit :=
  modify (fun w =>
    {| state := state w; error := error w; result := result w;
       timers := timers w; requests := requests w;
       console := console w ++ [msg];
       node_env := node_env w; network := network w |}).

(** [fetch(apiUrl, { method: "POST", body: formData })]: the request is
    recorded, then the network answers. *)
Definition fetch (req : Request) : M World Response :=
  fun w =>
    (network w req,
     {| state := state w; error := error w; result := result w;
        timers := timers w; requests := requests w ++ [req];
        console := console w;
        node_env := node_env w; network := network w |}).

(** [await response.json()] *)
Definition response_json (r : Response) : M World Payload :=
  fun w => (json r, w).

Definition msg_not_pdf : string := "Veuillez sélectionner un fichier PDF valide".
Definition msg_too_large : string := "Le fichier est trop volumineux (max 50MB)".
Definition msg_extraction : string := "Erreur lors de l'extraction".
Definition msg_no_requirements : string :=
  "Aucune exigence PCI DSS trouvée dans le PDF".
Definition msg_extraction_pdf : string := "Erreur lors de l'extraction du PDF".

Definition max_size : Z := 50 * 1024 * 1024.

(** [error instanceof Error ? error.message : "..."] *)
Definition message_of (e : exn) : string :=
  match e with
  | ErrorObj m => m
  | NonError => msg_extraction_pdf
  end.

Definition extraction_request (w : World) (file : File) : Request :=
  {| url := apiUrl (node_env w); method := "POST"; body := file |}.

(** The body of the [try] block. *)
Definition upload (file : File) : M World unit :=
  setState Uploading ;;;
  setState Processing ;;;
  req <- gets (fun w => extraction_request w file) ;;
  response <- fetch req ;;
  (if negb (ok response)
   then errorData <- response_json response ;;
        throw (ErrorObj (or_else (Api.error errorData) msg_extraction))
   else ret tt) ;;;
  data <- response_json response ;;
  match requirements data with
  | Some (r :: rs) =>
      setResult (Some {| filename := name file;
                         result_requirements := r :: rs;
                         result_summary := summary data |}) ;;;
      setState Success
  | _ => throw (ErrorObj msg_no_requirements)
  end.

Definition handleFiles (files : option (list File)) : M World unit :=
  match files with
  | None | Some [] => ret tt
  | Some (file :: _) =>
      return_if (negb (type file =? "application/pdf")%string)
        (setError (Some msg_not_pdf) ;;;
         setState Error ;;;
         setTimeout ClearError 3000)
      (return_if (max_size <? size file)%Z
        (setError (Some msg_too_large) ;;;
         setState Error ;;;
         setTimeout ClearError 3000)
      (try_catch (upload file)
         (fun e =>
            console_error "Extraction error:" ;;;
            setError (Some (message_of e)) ;;;
            setState Error ;;;
            setTimeout ClearError 5000)))
  end.

(** Running a timer's callback. *)
Definition fire (a : TimerAction) : M World unit :=
  match a with
  | ClearError => setError None ;;; setState Idle
  end.

(** [resetForm] *)
Definition resetForm : M World unit :=
  setState Idle ;;; setResult None ;;; setError None.

(** Inputs the checks below run on. *)
Definition sample_pdf : File :=
  {| name := "PCI-DSS-v4-0-1-SAQ-D-Merchant-FR.pdf";
     type := "application/pdf"; size := 2400000 |}.

Definition sample_doc : File :=
  {| name := "notes.docx"; type := "application/msword"; size := 1000 |}.

Definition huge_pdf : File :=
  {| name := "scan.pdf"; type := "application/pdf"; size := 52428801 |}.

(** A backend that answers 200 with an empty requirements list. *)
Definition empty_answer : Network :=
  fun _ =>
    Done {| ok := true; statusText := "OK";
            json := Done {| Api.error := None; requirements := Some [];
                            summary := None |} |}.

Definition mounted (net : Network) : World :=
  {| state := Idle; error := None; result := None; timers := [];
     requests := []; console := []; node_env := "production";
     network := net |}.

End UploadForm.

(** ** The page with [processFile], [downloadJSON] and [downloadCSV] *)

Module Page.
Import Eff Api.
Local Open Scope eff_scope.

(** What ends up in the [Blob] handed to the browser. The JSON text is
    kept as the value it is the [JSON.stringify] of. *)
Inductive BlobPart : Type :=
| Stringified (data : list Requirement)
| Text (content : string).

(** One click on the temporary anchor: [a.download] and the blob behind
    [a.href]. *)
Record Download : Type := {
  download : string;
  blob_type : string;
  blob : BlobPart
}.

Record World : Type := {
  file : option File;
  isProcessing : bool;
  isDragging : bool;
  extractedData : option (list Requirement);
  languageInfo : option LanguageInfo;
  downloads : list Download;
  requests : list Request;
  console : list string;
  node_env : string;
  network : Network;
  (** [new Date().toISOString()] *)
  now_iso : string
}.

Definition setIsProcessing (b : bool) : M World unit :=
  modify (fun w =>
    {| file := file w; isProcessing := b; isDragging := isDragging w;
       extractedData := extractedData w; languageInfo := languageInfo w;
       downloads := downloads w; requests := requests w;
       console := console w; node_env := node_env w;
       network := network w; now_iso := now_iso w |}).

Definition setExtractedData (d : option (list Requirement)) : M World unit :=
  modify (fun w =>
    {| file := file w; isProcessing := isProcessing w;
       isDragging := isDragging w;
       extractedData := d; languageInfo := languageInfo w;
       downloads := downloads w; requests := requests w;
       console := console w; node_env := node_env w;
       network := network w; now_iso := now_iso w |}).

Definition setLanguageInfo (l : option LanguageInfo) : M World unit :=
  modify (fun w =>
    {| file := file w; isProcessing := isProcessing w;
       isDragging := isDragging w;
       extractedData := extractedData w; languageInfo := l;
       downloads := downloads w; requests := requests w;
       console := console w; node_env := node_env w;
       network := network w; now_iso := now_iso w |}).

Definition console_write (msg : string) : M World unit :=
  modify (fun w =>
    {| file := file w; isProcessing := isProcessing w;
       isDragging := isDragging w;
       extractedData := extractedData w; languageInfo := languageInfo w;
       downloads := downloads w; requests := requests w;
       console := console w ++ [msg]; node_env := node_env w;
       network := network w; now_iso := now_iso w |}).

Definition click (d : Download) : M World unit :=
  modify (fun w =>
    {| file := file w; isProcessing := isProcessing w;
       isDragging := isDragging w;
       extractedData := extractedData w; languageInfo := languageInfo w;
       downloads := downloads w ++ [d]; requests := requests w;
       console := console w; node_env := node_env w;
       network := network w; now_iso := now_iso w |}).

Definition fetch (req : Request) : M World Response :=
  fun w =>
    (network w req,
     {| file := file w; isProcessing := isProcessing w;
        isDragging := isDragging w;
        extractedData := extractedData w; languageInfo := languageInfo w;
        downloads := downloads w; requests := requests w ++ [req];
        console := console w; node_env := node_env w;
        network := network w; now_iso := now_iso w |}).

Definition response_json (r : Response) : M World Payload :=
  fun w => (json r, w).

(** The body of the [try] block of [processFile]. *)
Definition process (f : File) : M World unit :=
  console_write "FormData created, sending request..." ;;;
  url_ <- gets (fun w => apiUrl (node_env w)) ;;
  response <- fetch {| url := url_; method := "POST"; body := f |} ;;
  console_write "Response received:" ;;;
  (if negb (ok response)
   then errorData <- response_json response ;;
        throw (ErrorObj ("Server error: "
                         ++ or_else (Api.error errorData) (statusText response)))
   else ret tt) ;;;
  data <- response_json response ;;
  console_write "Data received:" ;;;
  match requirements data with
  | Some (r :: rs) =>
      console_write "Found requirements" ;;;
      setExtractedData (Some (r :: rs)) ;;;
      match summary data with
      | Some s =>
          match language_detection s with
          | Some l => setLanguageInfo (Some l) ;;;
                      console_write "Language detected:"
          | None => ret tt
          end
      | None => ret tt
      end
  | _ => console_write "No requirements found in response"
  end.

Definition processFile : M World unit :=
  selected <- gets file ;;
  match selected with
  | None => console_write "No file selected"
  | Some f =>
      console_write "Starting PDF processing..." ;;;
      setIsProcessing true ;;;
      try_catch (process f)
        (fun e => console_write "Error processing file:") ;;;
      setIsProcessing false
  end.

(** [now.toISOString().slice(0, 19).replace(/[:.]/g, '-')] *)
Definition colon_or_dot (c : ascii) : bool :=
  Ascii.eqb c ":" || Ascii.eqb c ".".

Definition timestamp_of (iso : string) : string :=
  Js.replace_class colon_or_dot "-" (Js.slice0 19 iso).

(** [languageInfo?.code ? `_${languageInfo.code}` : ''] *)
Definition languageSuffix (info : option LanguageInfo) : string :=
  match info with
  | Some l =>
      match code l with
      | Some c => if (c =? "")%string then "" else "_" ++ c
      | None => ""
      end
  | None => ""
  end.

(** [`pci_requirements${languageSuffix}_${timestamp}.json`] and its
    [.csv] twin. *)
Definition fileName (info : option LanguageInfo) (timestamp ext : string)
  : string :=
  "pci_requirements" ++ languageSuffix info ++ "_" ++ timestamp ++ ext.

Definition downloadJSON : M World unit :=
  data <- gets extractedData ;;
  match data with
  | None => ret tt
  | Some items =>
      iso <- gets now_iso ;;
      info <- gets languageInfo ;;
      click {| download := fileName info (timestamp_of iso) ".json";
               blob_type := "application/json";
               blob := Stringified items |}
  end.

Definition dquote : ascii := "034"%char.
Definition newline : string := String "010"%char EmptyString.

Definition is_dquote (c : ascii) : bool := Ascii.eqb c dquote.

(** The template literal of every cell: the value with each double quote
    doubled, between two double quotes. *)
Definition quoted (v : string) : string :=
  String dquote
    (Js.replace_class is_dquote (String dquote (String dquote EmptyString)) v
     ++ String dquote EmptyString).

Definition headers : list string :=
  ["reqid"; "pci_requirement_fr"; "tp"; "guidance"].

(** The callback of [extractedData.map]. [item.tests] is an array by its
    type, so [Array.isArray(item.tests)] holds and the tests are joined. *)
Definition csv_line (item : Requirement) : string :=
  Js.join ","
    [ quoted (Js.or_empty (req_num item));
      quoted (Js.or_empty (text item));
      quoted (Js.join "; " (tests item));
      quoted (Js.or_empty (guidance item)) ].

Definition csvContent (items : list Requirement) : string :=
  Js.join newline (Js.join "," headers :: map csv_line items).

Definition downloadCSV : M World unit :=
  data <- gets extractedData ;;
  match data with
  | None => ret tt
  | Some items =>
      iso <- gets now_iso ;;
      info <- gets languageInfo ;;
      click {| download := fileName info (timestamp_of iso) ".csv";
               blob_type := "text/csv;charset=utf-8;";
               blob := Text (csvContent items) |}
  end.

(** The file name the last click suggested. *)
Definition suggested (w : World) : option string :=
  option_map download (last (map Some (downloads w)) None).

(** Inputs the checks below run on. *)
Definition french_report : LanguageInfo :=
  {| code := Some "fr"; lang_name := "Français"; name_en := "French";
     extractor := "testv5.py (French)"; confidence_percentage := "76.5%" |}.

Definition two_requirements : list Requirement :=
  [ {| req_num := "1.1.1";
       text := "Roles are " ++ String dquote "documented" ++ String dquote "";
       tests := ["Examine documentation"; "Interview personnel"];
       guidance := "" |};
    {| req_num := "1.1.1"; text := "Second mention"; tests := [];
       guidance := "Line one" ++ newline ++ "line two, with a comma" |} ].

Definition extracted (info : option LanguageInfo) : World :=
  {| file := None; isProcessing := false; isDragging := false;
     extractedData := Some two_requirements; languageInfo := info;
     downloads := []; requests := []; console := [];
     node_env := "production";
     network := fun _ => Raise (ErrorObj "Failed to fetch");
     now_iso := "2024-01-15T10:30:45.123Z" |}.

(** A page with a file selected, in front of a backend that answers 200
    with an empty requirements list. *)
Definition selected : World :=
  {| file := Some {| name := "empty.pdf"; type := "application/pdf"; size := 10 |};
     isProcessing := false; isDragging := false;
     extractedData := None; languageInfo := None;
     downloads := []; requests := []; console := [];
     node_env := "development";
     network := fun _ =>
       Done {| ok := true; statusText := "OK";
               json := Done {| Api.error := None; requirements := Some [];
                               summary := None |} |};
     now_iso := "2024-01-15T10:30:45.123Z" |}.

End Page.

(** ** The CSV of [downloadCSV], as its description words it *)

Module CsvSpec.
Import Api.

Definition header : string := "reqid,pci_requirement_fr,tp,guidance".

(** Every double quote of [s] doubled. *)
Fixpoint doubled (s : string) : string :=
  match s with
  | EmptyString => EmptyString
  | String c rest =>
      if Ascii.eqb c Page.dquote
      then String Page.dquote (String Page.dquote (doubled rest))
      else String c (doubled rest)
  end.

(** A field wrapped in double quotes. *)
Definition wrapped (s : string) : string :=
  String Page.dquote (doubled s ++ String Page.dquote EmptyString).

(** The four fields of a requirement, its tests joined into one. *)
Definition cells (r : Requirement) : list string :=
  [ req_num r; text r; String.concat "; " (tests r); guidance r ].

Definition row (r : Requirement) : string :=
  String.concat "," (map wrapped (cells r)).

(** One row for each requirement, in sequence order, each on a line of
    its own after what precedes. *)
Fixpoint rows (rs : list Requirement) : string :=
  match rs with
  | [] => EmptyString
  | r :: rest => Page.newline ++ row r ++ rows rest
  end.

Definition document (rs : list Requirement) : string := header ++ rows rs.

End CsvSpec.

(** ** The language detector of the backend

    [api/language_detector.py] (class [PCILanguageDetector]) is called by
    the endpoint the front ends post to, but is not among the sources; the
    keyword lists are those of the feature's README. *)

Module Detector.

(** Modelled from the spec: the languages the missing detector considers. *)
Inductive Language : Type := French | English.

(** Modelled from the spec: the Lexicon component, the static keyword set
    of each language, with the keywords the README lists under
    its detection keywords. *)
Definition lexicon (l : Language) : list string :=
  match l with
  | French =>
      [ "exigences"; "conseils"; "examiner"; "observer"; "interroger";
        "vérifier"; "inspecter"; "applicabilité"; "en place";
        "pas en place"; "non applicable"; "non testé";
        "notes d'applicabilité" ]
  | English =>
      [ "requirements"; "guidance"; "examine"; "observe"; "interview";
        "verify"; "inspect"; "applicability"; "in place"; "not in place";
        "not applicable"; "not tested"; "applicability notes" ]
  end.

(** Modelled from the spec: the LanguageDetectionResult record
    [{code, name, name_en, confidence, extractor_label}] of the missing
    detector. *)
Record LanguageDetectionResult : Type := {
  code : string;
  name : string;
  name_en : string;
  confidence : Q;
  extractor_label : string
}.

(** Modelled from the spec: the localized name, the English name and the
    extractor label of each language, as the README's sample report of
    the missing detector shows them. *)
Definition describe (l : Language) (c : Q) : LanguageDetectionResult :=
  match l with
  | French =>
      {| code := "fr"; name := "Français"; name_en := "French";
         confidence := c; extractor_label := "testv5.py (French)" |}
  | English =>
      {| code := "en"; name := "English"; name_en := "English";
         confidence := c; extractor_label := "testv5_EN.py (English)" |}
  end.

Definition lower (c : ascii) : ascii :=
  if Js.is_upper c then ascii_of_nat (nat_of_ascii c + 32) else c.

Fixpoint lowercase (s : string) : string :=
  match s with
  | EmptyString => EmptyString
  | String c rest => String (lower c) (lowercase rest)
  end.

(** Occurrences of [kw] in [s] that do not overlap, left to right;
    [skip] characters are still covered by the last occurrence. *)
Fixpoint count_from (skip : nat) (kw s : string) : nat :=
  match s with
  | EmptyString => 0
  | String _ rest =>
      match skip with
      | S k => count_from k kw rest
      | O =>
          if prefix kw s
          then S (count_from (String.length kw - 1) kw rest)
          else count_from 0 kw rest
      end
  end.

(** Modelled from the spec: the case-insensitive substring matching of
    the missing detector (the spec allows substring or word-boundary
    matching; letters outside ASCII are compared as they are). *)
Definition substring_occurrences (kw text : string) : nat :=
  count_from 0 (lowercase kw) (lowercase text).

Section Detect.

(** How often a keyword occurs in a text. The spec leaves the matching
    open (substring or word boundary), so the detector is embedded for
    every way of counting. *)
Variable occurrences : string -> string -> nat.

(** Modelled from the spec: the raw hit count of one language in the
    missing detector, the occurrences of every keyword of its lexicon. *)
Definition hits (l : Language) (text : string) : nat :=
  list_sum (map (fun kw => occurrences kw text) (lexicon l)).

(** Modelled from the spec: whether any keyword of either lexicon
    occurs in the text. *)
Definition recognises (text : string) : bool :=
  existsb (fun kw => negb (occurrences kw text =? 0)%nat)
    (lexicon French ++ lexicon English).

(** Modelled from the spec: the winner of the missing detector, the
    language with the most hits, French on a tie. *)
Definition winner (text : string) : Language :=
  if (hits French text <? hits English text)%nat then English else French.

(** Modelled from the spec: the confidence of the missing detector,
    winning hits over all hits, and 0 when nothing matched. *)
Definition confidence_of (text : string) : Q :=
  let total := (hits French text + hits English text)%nat in
  match total with
  | O => 0%Q
  | S _ => (Z.of_nat (hits (winner text) text) # Pos.of_nat total)%Q
  end.

(** Modelled from the spec: [detect(text) -> LanguageDetectionResult]
    of the missing [PCILanguageDetector]. *)
Definition detect (text : string) : LanguageDetectionResult :=
  describe (winner text) (confidence_of text).

End Detect.

End Detector.

(** ** The JSON the backend answers with *)

Module Json.

#[local] Unset Elimination Schemes.

Inductive json : Type :=
| JNull
| JBool (b : bool)
| JNumber (q : Q)
| JString (s : string)
| JArray (items : list json)
| JObject (fields : list (string * json)).

(** The value of a property of an object, when it has one. *)
Fixpoint lookup (key : string) (fields : list (string * json)) : option json :=
  match fields with
  | [] => None
  | (k, v) :: rest => if (k =? key)%string then Some v else lookup key rest
  end.

Definition field (key : string) (j : json) : option json :=
  match j with
  | JObject fields => lookup key fields
  | _ => None
  end.

Definition is_string (j : json) : bool :=
  match j with JString _ => true | _ => false end.

(** A sequence of strings: an array all of whose items are strings. *)
Definition is_string_array (j : json) : bool :=
  match j with
  | JArray items => forallb is_string items
  | _ => false
  end.

End Json.

(** ** The requirement extractor of the backend

    [api/extractors.py] (classes [PCIRequirementsExtractorFR] and
    [PCIRequirementsExtractorEN]) and [testv5.py] are not among the
    sources either. *)

Module Extractor.

(** Modelled from the spec: the Requirement of the missing extractors,
    the dict [{req_num, text, tests, guidance, applicability?}] the
    extractor builds: the keys it holds, in the order they were set, each
    with its value. A key that was never set is missing. *)
Definition Requirement : Type := list (string * Json.json).

(** [d[key] = v]: the value of a key the dict holds is replaced, a new key
    goes to the end. *)
Fixpoint assign (key : string) (v : Json.json) (d : Requirement) : Requirement :=
  match d with
  | [] => [(key, v)]
  | (k, x) :: rest =>
      if (k =? key)%string then (k, v) :: rest else (k, x) :: assign key v rest
  end.

(** [d.get(key, "")] for a key that holds a string. *)
Definition text_at (key : string) (d : Requirement) : string :=
  match Json.lookup key d with
  | Some (Json.JString s) => s
  | _ => ""
  end.

(** [d.get(key, [])] for a key that holds a list. *)
Definition items_at (key : string) (d : Requirement) : list Json.json :=
  match Json.lookup key d with
  | Some (Json.JArray items) => items
  | _ => []
  end.

Definition req_num (d : Requirement) : string := text_at "req_num" d.

(** Modelled from the spec: the four kinds of marker a grammar of the
    missing extractors defines. *)
Inductive MarkerKind : Type :=
| RequirementStart
| TestProcedure
| GuidanceStart
| ApplicabilityStart.

(** Modelled from the spec: one typed marker of the missing Segmentation
    Grammar. Its pattern is embedded by what it recognises: for a segment
    it matches, the captured head (the identifier of a requirement start,
    the keyword of the other kinds) and the remainder of the segment. *)
Record Marker : Type := {
  kind : MarkerKind;
  recognise : string -> option (string * string)
}.

(** Modelled from the spec: the missing Segmentation Grammar of one
    language, an ordered list of typed markers the Extractor consults. *)
Definition Grammar : Type := list Marker.

(** Modelled from the spec: how the missing Extractor consults the
    grammar; the first marker of the list that matches decides. *)
Fixpoint classify (g : Grammar) (seg : string)
  : option (MarkerKind * (string * string)) :=
  match g with
  | [] => None
  | m :: rest =>
      match recognise m seg with
      | Some cap => Some (kind m, cap)
      | None => classify rest seg
      end
  end.

Definition is_space (c : ascii) : bool :=
  let n := nat_of_ascii c in
  (n =? 32)%nat || ((9 <=? n)%nat && (n <=? 13)%nat).

Fixpoint trim_left (s : string) : string :=
  match s with
  | EmptyString => EmptyString
  | String c rest => if is_space c then trim_left rest else s
  end.

Fixpoint trim_right (s : string) : string :=
  match s with
  | EmptyString => EmptyString
  | String c rest =>
      match trim_right rest with
      | EmptyString => if is_space c then EmptyString else String c EmptyString
      | r => String c r
      end
  end.

Definition trim (s : string) : string := trim_right (trim_left s).

(** The words of [s]; [cur] is the word being read. *)
Fixpoint split_ws (s cur : string) : list string :=
  match s with
  | EmptyString => if (cur =? "")%string then [] else [cur]
  | String c rest =>
      if is_space c
      then (if (cur =? "")%string then split_ws rest ""
            else cur :: split_ws rest "")
      else split_ws rest (cur ++ String c EmptyString)
  end.

(** Whitespace collapsed: the words joined by single spaces. *)
Definition collapse (s : string) : string := Js.join " " (split_ws s "").

(** The lines of [s]; [cur] is the line being read. *)
Fixpoint split_lines (s cur : string) : list string :=
  match s with
  | EmptyString => [cur]
  | String c rest =>
      if Ascii.eqb c "010"%char then cur :: split_lines rest ""
      else split_lines rest (cur ++ String c EmptyString)
  end.

(** Modelled from the spec: step 1 of the missing Extractor, the text
    split into candidate lines, order preserved. *)
Definition segments (text : string) : list string := split_lines text "".

(** [Some s'] when [s] is [s'] followed by a hyphen. *)
Fixpoint strip_hyphen (s : string) : option string :=
  match s with
  | EmptyString => None
  | String c EmptyString =>
      if Ascii.eqb c "-" then Some EmptyString else None
  | String c rest => option_map (String c) (strip_hyphen rest)
  end.

Definition join_words (a b : string) : string :=
  let b' := collapse b in
  if (b' =? "")%string then a
  else if (a =? "")%string then b'
  else a ++ " " ++ b'.

(** Modelled from the spec: how the missing Extractor appends a segment
    to the requirement text, joined with a single space, a hyphenation
    line break collapsed. *)
Definition join_text (a b : string) : string :=
  let b' := collapse b in
  if (b' =? "")%string then a
  else if (a =? "")%string then b'
  else match strip_hyphen a with
       | Some a' => a' ++ b'
       | None => a ++ " " ++ b'
       end.

(** Modelled from the spec: what the accumulator of the missing Extractor
    is collecting, the requirement text, the tests after a test marker, the
    guidance in guidance mode, or the applicability notes. *)
Inductive Mode : Type := InText | InTests | InGuidance | InApplicability.

(** Modelled from the spec: the state of the missing Extractor's scan,
    the single current-requirement accumulator, the mode it is in and the
    requirements emitted so far. *)
Record Scanner : Type := {
  current : Requirement;
  mode : Mode;
  emitted : list Requirement
}.

(** Modelled from the spec: the accumulator of the missing Extractor
    before any requirement start, a dict with no key. *)
Definition blank : Requirement := [].

Definition start : Scanner :=
  {| current := blank; mode := InText; emitted := [] |}.

(** A requirement is open once an identifier was captured. *)
Definition is_open (r : Requirement) : bool := negb (req_num r =? "")%string.

(** Modelled from the spec: closing the accumulator of the missing
    Extractor emits it if it has a non-empty [req_num]. *)
Definition close (st : Scanner) : list Requirement :=
  if is_open (current st) then emitted st ++ [current st] else emitted st.

(** Modelled from the spec: the accumulator a requirement start opens in
    the missing Extractor, with the identifier, the start of the text, no
    test yet and no guidance yet ([tests] is empty, not omitted, and
    [guidance] the empty string, when none is found). *)
Definition open_requirement (id rest : string) : Requirement :=
  [ ("req_num", Json.JString id);
    ("text", Json.JString (collapse rest));
    ("tests", Json.JArray []);
    ("guidance", Json.JString "") ].

Definition add_text (r : Requirement) (seg : string) : Requirement :=
  assign "text" (Json.JString (join_text (text_at "text" r) seg)) r.

Definition add_test (r : Requirement) (entry : string) : Requirement :=
  assign "tests" (Json.JArray (items_at "tests" r ++ [Json.JString entry])) r.

Fixpoint extend_last (entries : list Json.json) (seg : string)
  : list Json.json :=
  match entries with
  | [] => []
  | [Json.JString e] => [Json.JString (join_words e seg)]
  | e :: rest => e :: extend_last rest seg
  end.

Definition continue_test (r : Requirement) (seg : string) : Requirement :=
  assign "tests" (Json.JArray (extend_last (items_at "tests" r) seg)) r.

Definition add_guidance (r : Requirement) (seg : string) : Requirement :=
  assign "guidance" (Json.JString (join_words (text_at "guidance" r) seg)) r.

Definition add_applicability (r : Requirement) (seg : string) : Requirement :=
  assign "applicability"
    (Json.JString (join_words (text_at "applicability" r) seg)) r.

Definition within (st : Scanner) (r : Requirement) (m : Mode) : Scanner :=
  {| current := r; mode := m; emitted := emitted st |}.

(** Modelled from the spec: a marker segment inside an open requirement
    of the missing Extractor. A test marker appends the trimmed remainder
    as a new entry when it is not empty; a guidance marker switches to
    guidance mode, and what follows the marker on its line starts the
    guidance, as Scenario A needs; the applicability marker, which step 3
    leaves out, is treated like the guidance marker. *)
Definition on_marker (st : Scanner) (k : MarkerKind) (rest : string)
  : Scanner :=
  match k with
  | RequirementStart => st
  | TestProcedure =>
      if (trim rest =? "")%string then within st (current st) InTests
      else within st (add_test (current st) (trim rest)) InTests
  | GuidanceStart => within st (add_guidance (current st) rest) InGuidance
  | ApplicabilityStart =>
      within st (add_applicability (current st) rest) InApplicability
  end.

(** Modelled from the spec: a segment no marker matches, inside an open
    requirement of the missing Extractor. The spec says where it goes in
    text mode and in guidance mode; after a test marker the embedding lets
    it continue the last test entry, and after an applicability marker the
    applicability notes. *)
Definition on_plain (st : Scanner) (seg : string) : Scanner :=
  match mode st with
  | InText => within st (add_text (current st) seg) InText
  | InTests => within st (continue_test (current st) seg) InTests
  | InGuidance => within st (add_guidance (current st) seg) InGuidance
  | InApplicability =>
      within st (add_applicability (current st) seg) InApplicability
  end.

(** Modelled from the spec: steps 2 and 3 of the missing Extractor, what
    one segment does to the scan. *)
Definition step (g : Grammar) (st : Scanner) (seg : string) : Scanner :=
  match classify g seg with
  | Some (RequirementStart, (id, rest)) =>
      {| current := open_requirement id rest; mode := InText;
         emitted := close st |}
  | Some (k, (_, rest)) =>
      if is_open (current st) then on_marker st k rest else st
  | None =>
      if is_open (current st) then on_plain st seg else st
  end.

(** Modelled from the spec: the scan of the missing Extractor over
    segments that are given, the last open accumulator closed at the end
    of the input (step 4). *)
Definition scan (g : Grammar) (segs : list string) : list Requirement :=
  close (fold_left (step g) segs start).

(** Modelled from the spec: [extract(text, grammar)] of the missing
    Extractor; the text is split into its lines, which are scanned in
    order. *)
Definition extract (g : Grammar) (text : string) : list Requirement :=
  scan g (segments text).

Definition matches (seg : string) (m : Marker) : bool :=
  match recognise m seg with
  | Some _ => true
  | None => false
  end.

(** Modelled from the spec: the identifier a line starts a requirement
    with, read off the grammar as the spec words it: the first marker of
    the ordered list that matches the line is a requirement-start marker,
    and the identifier is what it captures. *)
Definition started_by (g : Grammar) (line : string) : option string :=
  match find (matches line) g with
  | Some m =>
      match kind m with
      | RequirementStart => option_map fst (recognise m line)
      | _ => None
      end
  | None => None
  end.

(** Modelled from the spec: the identifiers of the requirement starts
    among the lines of a text, in the order of the lines. *)
Fixpoint start_identifiers (g : Grammar) (lines : list string) : list string :=
  match lines with
  | [] => []
  | line :: rest =>
      match started_by g line with
      | Some id => id :: start_identifiers g rest
      | None => start_identifiers g rest
      end
  end.

Definition nonempty (s : string) : bool := negb (s =? "")%string.

(** A line holds no line feed. *)
Fixpoint single_line (s : string) : bool :=
  match s with
  | EmptyString => true
  | String c rest => negb (Ascii.eqb c "010"%char) && single_line rest
  end.

(** Modelled from the spec: what is never absent or null in a Requirement
    of the missing extractors, [tests] as a sequence of strings and
    [guidance] as a string. *)
Definition Complete (d : Requirement) : Prop :=
  exists (ts : list string) (gd : string),
    Json.lookup "tests" d = Some (Json.JArray (map Json.JString ts))
    /\ Json.lookup "guidance" d = Some (Json.JString gd).

(** What the scan keeps true: the emitted requirements are complete, and
    so is the current one once it is open. *)
Definition Sound (st : Scanner) : Prop :=
  Forall Complete (emitted st)
  /\ (is_open (current st) = true -> Complete (current st)).

End Extractor.

(** ** Two grammars, for the layouts the spec's scenarios show *)

Module Grammars.
Import Extractor.

(** The longest prefix of [s] made of characters of the class, and what
    follows it. *)
Fixpoint span (cls : ascii -> bool) (s : string) : string * string :=
  match s with
  | EmptyString => (EmptyString, EmptyString)
  | String c rest =>
      if cls c
      then let (a, b) := span cls rest in (String c a, b)
      else (EmptyString, s)
  end.

Definition digit_or_dot (c : ascii) : bool :=
  Js.is_digit c || Ascii.eqb c ".".

(** Modelled from the spec: the layout convention of the missing
    grammars, a line beginning with a dotted numeric identifier followed
    by whitespace starts a new requirement. *)
Definition dotted_identifier (seg : string) : option (string * string) :=
  let (id, rest) := span digit_or_dot (trim_left seg) in
  match id, rest with
  | String d _, String w _ =>
      if Js.is_digit d && is_space w then Some (id, rest) else None
  | _, _ => None
  end.

Fixpoint drop (n : nat) (s : string) : string :=
  match n, s with
  | S k, String _ rest => drop k rest
  | _, _ => s
  end.

(** A segment that begins with the keyword, letter case apart. *)
Definition keyword_prefix (kw seg : string) : option (string * string) :=
  let s := trim_left seg in
  if prefix (Detector.lowercase kw) (Detector.lowercase s)
  then Some (kw, drop (String.length kw) s)
  else None.

(** Modelled from the spec: the English grammar of the missing
    extractor, with the markers of Scenario A. *)
Definition english : Grammar :=
  [ {| kind := RequirementStart; recognise := dotted_identifier |};
    {| kind := TestProcedure; recognise := keyword_prefix "Testing Procedures:" |};
    {| kind := GuidanceStart; recognise := keyword_prefix "Guidance:" |};
    {| kind := ApplicabilityStart; recognise := keyword_prefix "Applicability Notes" |} ].

(** Modelled from the spec: the French grammar of the missing extractor,
    with the markers of Scenario B. *)
Definition french : Grammar :=
  [ {| kind := RequirementStart; recognise := dotted_identifier |};
    {| kind := TestProcedure; recognise := keyword_prefix "Procédures de test :" |};
    {| kind := GuidanceStart; recognise := keyword_prefix "Conseils :" |};
    {| kind := ApplicabilityStart; recognise := keyword_prefix "Notes d'applicabilité" |} ].

Definition of_language (l : Detector.Language) : Grammar :=
  match l with
  | Detector.French => french
  | Detector.English => english
  end.

End Grammars.

(** ** The extraction orchestrator of the backend ([api/extract.py]) *)

Module Orchestrator.
Import Json.

(** Modelled from the spec: the ExtractionSummary of the missing
    orchestrator, counts derived from the Requirement sequence. *)
Record ExtractionSummary : Type := {
  total : nat;
  with_tests : nat;
  with_guidance : nat;
  total_tests : nat
}.

(** Modelled from the spec: what [run] of the missing orchestrator
    returns, [{requirements, language_detection, summary}]. *)
Record Result : Type := {
  requirements : list Extractor.Requirement;
  language_detection : Detector.LanguageDetectionResult;
  summary : ExtractionSummary
}.

Definition count_one (s : ExtractionSummary) (r : Extractor.Requirement)
  : ExtractionSummary :=
  {| total := S (total s);
     with_tests := match Extractor.items_at "tests" r with
                   | [] => with_tests s
                   | _ :: _ => S (with_tests s)
                   end;
     with_guidance := if (Extractor.text_at "guidance" r =? "")%string
                      then with_guidance s else S (with_guidance s);
     total_tests := total_tests s + List.length (Extractor.items_at "tests" r) |}.

(** Modelled from the spec: the summary of the missing orchestrator,
    computed by a single pass over the result. *)
Definition summarise (rs : list Extractor.Requirement) : ExtractionSummary :=
  fold_left count_one rs
    {| total := 0; with_tests := 0; with_guidance := 0; total_tests := 0 |}.

(** Modelled from the spec: the Extractor variant whose language code
    matches the detected code, French otherwise. *)
Definition select (code : string) : Detector.Language :=
  if (code =? "en")%string then Detector.English else Detector.French.

Section Run.

Variable occurrences : string -> string -> nat.
Variable grammar_of : Detector.Language -> Extractor.Grammar.

(** Modelled from the spec: [run(text)] of the missing orchestrator,
    detector, then the selected extractor, then the summary. *)
Definition run (text : string) : Result :=
  let detection := Detector.detect occurrences text in
  let found :=
    Extractor.extract (grammar_of (select (Detector.code detection))) text in
  {| requirements := found;
     language_detection := detection;
     summary := summarise found |}.

End Run.

(** Modelled from the spec: one Requirement of the missing backend in the
    JSON of its output, the dict as the extractor left it. *)
Definition requirement_json (r : Extractor.Requirement) : json := JObject r.

(** Modelled from the spec: the [confidence_percentage] string of the
    missing backend's report, one decimal of a percentage as in the
    README's sample. *)
Definition confidence_percentage (c : Q) : string :=
  let tenths := Qfloor (c * 1000 + (1 # 2))%Q in
  Js.of_Z (tenths / 10)%Z ++ "." ++ Js.of_Z (tenths mod 10)%Z ++ "%".

(** Modelled from the spec: the [language_detection] object of the
    missing backend's output. *)
Definition language_json (d : Detector.LanguageDetectionResult) : json :=
  JObject
    [ ("code", JString (Detector.code d));
      ("name", JString (Detector.name d));
      ("name_en", JString (Detector.name_en d));
      ("extractor", JString (Detector.extractor_label d));
      ("confidence", JNumber (Detector.confidence d));
      ("confidence_percentage",
       JString (confidence_percentage (Detector.confidence d))) ].

Definition of_nat (n : nat) : json := JNumber (inject_Z (Z.of_nat n)).

(** Modelled from the spec: the JSON-serializable output of the missing
    backend, [{requirements, summary}] with the language report inside
    the summary. *)
Definition output_json (r : Result) : json :=
  JObject
    [ ("requirements", JArray (map requirement_json (requirements r)));
      ("summary",
       JObject
         [ ("total", of_nat (total (summary r)));
           ("with_tests", of_nat (with_tests (summary r)));
           ("with_guidance", of_nat (with_guidance (summary r)));
           ("total_tests", of_nat (total_tests (summary r)));
           ("language_detection", language_json (language_detection r)) ]) ].

(** The requirement objects of an output. *)
Definition emitted_requirements (out : json) : list json :=
  match field "requirements" out with
  | Some (JArray items) => items
  | _ => []
  end.

End Orchestrator.

(** ** Reading a CSV back

    A reader for the CSV dialect of the download (RFC 4180: fields
    separated by commas, records by line feeds, a field may be quoted and
    then holds commas, line feeds and doubled quotes). It is not part of
    the repository; it says what a consumer of the download gets. *)

Module CsvReader.

Inductive Lexing : Type :=
| Bare      (* at the start of a field, or inside an unquoted one *)
| Quoted    (* inside a quoted field *)
| Closed.   (* after a quote met inside a quoted field *)

(** [cur] is the field being read and [rec] the fields of the record
    before it. *)
Fixpoint read (st : Lexing) (cur : string) (rec : list string) (s : string)
  : list (list string) :=
  match s with
  | EmptyString => [(rec ++ [cur])%list]
  | String c rest =>
      match st with
      | Quoted =>
          if Page.is_dquote c then read Closed cur rec rest
          else read Quoted (cur ++ String c EmptyString) rec rest
      | Bare =>
          if Page.is_dquote c && (cur =? "")%string then read Quoted "" rec rest
          else if Ascii.eqb c "," then read Bare "" (rec ++ [cur])%list rest
          else if Ascii.eqb c "010"%char
               then (rec ++ [cur])%list :: read Bare "" [] rest
               else read Bare (cur ++ String c EmptyString) rec rest
      | Closed =>
          if Page.is_dquote c
          then read Quoted (cur ++ String c EmptyString) rec rest
          else if Ascii.eqb c "," then read Bare "" (rec ++ [cur])%list rest
          else if Ascii.eqb c "010"%char
               then (rec ++ [cur])%list :: read Bare "" [] rest
               else read Bare (cur ++ String c EmptyString) rec rest
      end
  end.

Definition records (s : string) : list (list string) := read Bare "" [] s.

End CsvReader.

(** ** The timer [POST] leaves behind, and the download-images route *)

Module Cleanup.
Import Eff ConvertPdf.
Local Open Scope eff_scope.

Definition at_path (p : string) (entry : string * string) : bool :=
  (fst entry =? p)%string.

(** [unlink(filepath)] of [fs/promises]: the file is removed; a path the
    file system refuses, or that names no file, makes it reject. *)
Definition unlink (p : string) : M World unit :=
  fun w =>
    if fs_denied w p
    then (Raise (ErrorObj "EACCES: permission denied, unlink"), w)
    else if existsb (at_path p) (files w)
    then (Done tt,
          {| cwd := cwd w; dirs := dirs w;
             files := filter (fun e => negb (at_path p e)) (files w);
             fs_denied := fs_denied w; clock := clock w;
             timers := timers w; console := console w |})
    else (Raise (ErrorObj "ENOENT: no such file or directory, unlink"), w).

(** The callback [POST] hands to [setTimeout]. *)
Definition fire (a : TimerAction) : M World unit :=
  match a with
  | Unlink filepath =>
      try_catch (unlink filepath)
        (fun error => console_error "Error cleaning up file:")
  end.

End Cleanup.

Module DownloadImages.

(** A JavaScript string as the handler has it: its UTF-16 code units. A
    query can hold any of them, [%0A] is decoded to a line feed and
    [%E2%82%AC] to the unit 8364. *)
Definition Text : Type := list N.

(** The text of a literal of the source, one unit for each character. *)
Fixpoint text (s : string) : Text :=
  match s with
  | EmptyString => []
  | String c rest => N_of_ascii c :: text rest
  end.

Fixpoint text_eqb (a b : Text) : bool :=
  match a, b with
  | [], [] => true
  | x :: a', y :: b' => (x =? y)%N && text_eqb a' b'
  | _, _ => false
  end.

(** [request.nextUrl.searchParams], the pairs of the query in order. *)
Record NextRequest : Type := {
  searchParams : list (Text * Text)
}.

Inductive Body : Type :=
| ErrorJson (error : string)
| Raw (content : string).

Record NextResponse : Type := {
  status : Z;
  headers : list (string * Text);
  body : Body
}.

(** What a call of the handler does: it returns a response, or the
    [Headers] of the response it builds throw a [TypeError]. *)
Inductive Outcome : Type :=
| Responds (r : NextResponse)
| ThrowsTypeError.

(** [searchParams.get(name)]: the first value of that name, or [null]. *)
Fixpoint searchParams_get (params : list (Text * Text)) (name : Text)
  : option Text :=
  match params with
  | [] => None
  | (k, v) :: rest =>
      if text_eqb k name then Some v else searchParams_get rest name
  end.

(** [!id]: [null] and the empty string are falsy. *)
Definition no_id (id : option Text) : bool :=
  match id with
  | None => true
  | Some [] => true
  | Some (_ :: _) => false
  end.

(** A unit a header value may hold: the value is a byte string, no unit
    above 255, and holds no NUL, no line feed and no carriage return. *)
Definition header_unit (u : N) : bool :=
  (u <=? 255)%N && negb (u =? 0)%N && negb (u =? 10)%N && negb (u =? 13)%N.

Definition header_value (v : Text) : bool := forallb header_unit v.

(** [`attachment; filename="converted-images-${id}.zip"`] *)
Definition disposition (id : Text) : Text :=
  (text ("attachment; filename=" ++ String Page.dquote "converted-images-")
   ++ id ++ text (".zip" ++ String Page.dquote ""))%list.

(** [new NextResponse(content, { headers })], status 200: the headers
    are checked one by one when the response is built. The two values
    here begin and end with a character that is no white space, so
    nothing is trimmed off them. *)
Definition new_NextResponse (content : string) (hs : list (string * Text))
  : Outcome :=
  if forallb (fun h => header_value (snd h)) hs
  then Responds {| status := 200; headers := hs; body := Raw content |}
  else ThrowsTypeError.

Definition GET (request : NextRequest) : Outcome :=
  let id := searchParams_get (searchParams request) (text "id") in
  if no_id id
  then Responds {| status := 400;
                   headers := [("content-type", text "application/json")];
                   body := ErrorJson "ID manquant" |}
  else new_NextResponse "Demo ZIP file content"
         [ ("Content-Type", text "application/zip");
           ("Content-Disposition",
            disposition (match id with Some v => v | None => [] end)) ].

(** The response to a download with the id given. *)
Definition zip_response (id : Text) : NextResponse :=
  {| status := 200;
     headers := [ ("Content-Type", text "application/zip");
                  ("Content-Disposition", disposition id) ];
     body := Raw "Demo ZIP file content" |}.

End DownloadImages.

(** ** The upload form of the converter (floating-notification) *)

Module ConverterForm.
Import Eff.
Local Open Scope eff_scope.

Inductive State : Type := Idle | Uploading | Converting | Success | Error.

(** What [fetch] resolves with, as [handleFiles] looks at it. *)
Record Response : Type := {
  ok : bool;
  json : outcome ConvertPdf.Body
}.

(** [fetch("/api/convert-pdf", { method: "POST", body: formData })] *)
Definition Network : Type := ConvertPdf.FormData -> outcome Response.

Inductive TimerAction : Type := ClearError.

Record World : Type := {
  state : State;
  error : option string;
  result : option ConvertPdf.Body;
  timers : list (Z * TimerAction);
  requests : list ConvertPdf.FormData;
  console : list string;
  network : Network
}.

(** [file.size], the number of bytes of the file. *)
Definition size (f : ConvertPdf.File) : Z :=
  Z.of_nat (String.length (ConvertPdf.bytes f)).

Definition setState (s : State) : M World unit :=
  modify (fun w =>
    {| state := s; error := error w; result := result w;
       timers := timers w; requests := requests w; console := console w;
       network := network w |}).

Definition setError (e : option string) : M World unit :=
  modify (fun w =>
    {| state := state w; error := e; result := result w;
       timers := timers w; requests := requests w; console := console w;
       network := network w |}).

Definition setResult (r : option ConvertPdf.Body) : M World unit :=
  modify (fun w =>
    {| state := state w; error := error w; result := r;
       timers := timers w; requests := requests w; console := console w;
       network := network w |}).

Definition setTimeout (a : TimerAction) (ms : Z) : M World unit :=
  modify (fun w =>
    {| state := state w; error := error w; result := result w;
       timers := timers w ++ [(ms, a)]; requests := requests w;
       console := console w; network := network w |}).

Definition console_error (msg : string) : M World unit :=
  modify (fun w =>
    {| state := state w; error := error w; result := result w;
       timers := timers w; requests := requests w;
       console := console w ++ [msg]; network := network w |}).

Definition fetch (fd : ConvertPdf.FormData) : M World Response :=
  fun w =>
    (network w fd,
     {| state := state w; error := error w; result := result w;
        timers := timers w; requests := requests w ++ [fd];
        console := console w; network := network w |}).

Definition response_json (r : Response) : M World ConvertPdf.Body :=
  fun w => (json r, w).

Definition msg_not_pdf : string := "Veuillez sélectionner un fichier PDF valide".
Definition msg_too_large : string := "Le fichier est trop volumineux (max 10MB)".
Definition msg_conversion : string := "Erreur lors de la conversion du PDF".

Definition max_size : Z := 10 * 1024 * 1024.

(** The body of the [try] block. *)
Definition upload (file : ConvertPdf.File) : M World unit :=
  setState Uploading ;;;
  setState Converting ;;;
  response <- fetch [("pdf", ConvertPdf.FileEntry file)] ;;
  (if negb (ok response)
   then throw (ErrorObj "Erreur lors de la conversion")
   else ret tt) ;;;
  result_ <- response_json response ;;
  setResult (Some result_) ;;;
  setState Success.

Definition handleFiles (files : option (list ConvertPdf.File)) : M World unit :=
  match files with
  | None | Some [] => ret tt
  | Some (file :: _) =>
      return_if (negb (ConvertPdf.type file =? "application/pdf")%string)
        (setError (Some msg_not_pdf) ;;;
         setState Error ;;;
         setTimeout ClearError 3000)
      (return_if (max_size <? size file)%Z
        (setError (Some msg_too_large) ;;;
         setState Error ;;;
         setTimeout ClearError 3000)
      (try_catch (upload file)
         (fun e =>
            console_error "Conversion error:" ;;;
            setError (Some msg_conversion) ;;;
            setState Error ;;;
            setTimeout ClearError 3000)))
  end.

(** The form checks let the file through. *)
Definition accepts (file : ConvertPdf.File) : bool :=
  (ConvertPdf.type file =? "application/pdf")%string
  && negb (max_size <? size file)%Z.

(** [response.ok]: a status from 200 to 299. *)
Definition ok_status (status : Z) : bool :=
  (200 <=? status)%Z && (status <=? 299)%Z.

(** The network when the route's [POST] answers the form directly, the
    server being in state [sw]. *)
Definition endpoint (sw : ConvertPdf.World) : Network :=
  fun fd =>
    match fst (ConvertPdf.POST {| ConvertPdf.form := Some fd |} sw) with
    | Done r =>
        Done {| ok := ok_status (ConvertPdf.status r);
                json := Done (ConvertPdf.body r) |}
    | Raise e => Raise e
    end.

Definition mounted (net : Network) : World :=
  {| state := Idle; error := None; result := None; timers := [];
     requests := []; console := []; network := net |}.

End ConverterForm.

(** ** More of the upload form of the extractor *)

Module UploadFormView.
Import Eff Api UploadForm.

(** The form checks let the file through. *)
Definition accepts (file : File) : bool :=
  (type file =? "application/pdf")%string && negb (max_size <? size file)%Z.

(** What the component returns: the result view with the two counts it
    reads off [result.summary], or the drop zone with its title and the
    error message under it. *)
Inductive View : Type :=
| ResultView (total total_tests : Z)
| DropZone (title : string) (message : option string).

(** A render returns a view, or throws the [TypeError] of a property read
    off [undefined] or [null]. *)
Inductive Rendering : Type :=
| Shows (v : View)
| ThrowsTypeError.

(** The title of the drop zone, nothing in the states the three tests
    leave out. *)
Definition title_of (s : State) : string :=
  match s with
  | Uploading => "Téléchargement..."
  | Processing => "Extraction en cours..."
  | Idle => "Glissez votre PDF PCI DSS ici"
  | _ => ""
  end.

(** [error && ...]: [undefined] and the empty string show nothing. *)
Definition shown_error (e : option string) : option string :=
  match e with
  | Some m => if (m =? "")%string then None else Some m
  | None => None
  end.

(** The body of the component after its hooks: under
    [state === "success" && result] the result view, which reads
    [result.summary.total] and [result.summary.total_tests]; otherwise
    the drop zone. *)
Definition render (w : World) : Rendering :=
  match state w, result w with
  | Success, Some r =>
      match result_summary r with
      | Some sm => Shows (ResultView (total sm) (total_tests sm))
      | None => ThrowsTypeError
      end
  | _, _ => Shows (DropZone (title_of (state w)) (shown_error (error w)))
  end.

(** A backend that answers 200 with one requirement. *)
Definition one_requirement : Requirement :=
  {| req_num := "1.1"; text := "Install"; tests := []; guidance := "" |}.

Definition full_answer : Network :=
  fun _ =>
    Done {| ok := true; statusText := "OK";
            json := Done {| Api.error := None;
                            requirements := Some [one_requirement];
                            summary := None |} |}.

(** A backend that answers 200 with one requirement and its summary. *)
Definition one_summary : Summary :=
  {| total := 1; with_tests := 0; with_guidance := 0; total_tests := 0;
     language_detection := None |}.

Definition summarised_answer : Network :=
  fun _ =>
    Done {| ok := true; statusText := "OK";
            json := Done {| Api.error := None;
                            requirements := Some [one_requirement];
                            summary := Some one_summary |} |}.

(** A backend that answers 422 with its own message. *)
Definition failing_answer : Network :=
  fun _ =>
    Done {| ok := false; statusText := "Unprocessable Entity";
            json := Done {| Api.error := Some "PDF illisible";
                            requirements := None; summary := None |} |}.

End UploadFormView.

(** ** The other handlers of the page with the downloads *)

Module PageEvents.
Import Eff Api Page.
Local Open Scope eff_scope.

Definition setFile (f : option File) : M World unit :=
  modify (fun w =>
    {| file := f; isProcessing := isProcessing w; isDragging := isDragging w;
       extractedData := extractedData w; languageInfo := languageInfo w;
       downloads := downloads w; requests := requests w;
       console := console w; node_env := node_env w;
       network := network w; now_iso := now_iso w |}).

Definition setIsDragging (b : bool) : M World unit :=
  modify (fun w =>
    {| file := file w; isProcessing := isProcessing w; isDragging := b;
       extractedData := extractedData w; languageInfo := languageInfo w;
       downloads := downloads w; requests := requests w;
       console := console w; node_env := node_env w;
       network := network w; now_iso := now_iso w |}).

(** [files?.[0]] and [files[0]]: the first file, if any. *)
Definition first_file (files : list File) : option File := hd_error files.

(** [uploadedFile && uploadedFile.type === 'application/pdf'] *)
Definition select_pdf (candidate : option File) : M World unit :=
  match candidate with
  | Some f =>
      if (type f =? "application/pdf")%string then setFile (Some f) else ret tt
  | None => ret tt
  end.

Definition handleFileUpload (files : option (list File)) : M World unit :=
  select_pdf (match files with Some l => first_file l | None => None end).

Definition handleDragOver : M World unit := setIsDragging true.

Definition handleDragLeave : M World unit := setIsDragging false.

Definition handleDrop (files : list File) : M World unit :=
  setIsDragging false ;;;
  select_pdf (first_file files).

(** What the user can do to the page. *)
Inductive Event : Type :=
| FileUpload (files : option (list File))
| DragOver
| DragLeave
| Drop (files : list File)
| ClickExtract
| ClickJSON
| ClickCSV.

Definition handle (e : Event) : M World unit :=
  match e with
  | FileUpload files => handleFileUpload files
  | DragOver => handleDragOver
  | DragLeave => handleDragLeave
  | Drop files => handleDrop files
  | ClickExtract => processFile
  | ClickJSON => downloadJSON
  | ClickCSV => downloadCSV
  end.

(** The events handled one after the other, each to its end. *)
Definition after (events : list Event) (w : World) : World :=
  fold_left (fun w e => snd (handle e w)) events w.

(** The page as [useState] initialises it. *)
Definition opened (env : string) (net : Network) (iso : string) : World :=
  {| file := None; isProcessing := false; isDragging := false;
     extractedData := None; languageInfo := None;
     downloads := []; requests := []; console := [];
     node_env := env; network := net; now_iso := iso |}.

(** What the page keeps true from its opening on: it talks to the same
    backend, the selected file is a PDF, every request sent was a POST of
    a PDF to the extraction URL, extracted data is never an empty list, a
    language report and a download are there only with extracted data, and
    no handler returns with the processing flag set. *)
Definition Healthy (env : string) (net : Network) (w : World) : Prop :=
  node_env w = env
  /\ network w = net
  /\ (forall f, file w = Some f -> type f = "application/pdf")
  /\ Forall (fun r => type (body r) = "application/pdf"
                      /\ method r = "POST" /\ url r = apiUrl env)
       (requests w)
  /\ extractedData w <> Some []
  /\ (languageInfo w <> None -> extractedData w <> None)
  /\ (downloads w <> [] -> extractedData w <> None)
  /\ isProcessing w = false.

End PageEvents.

(** ** The earlier page, which downloads at once and tells the user *)

Module AlertPage.
Import Eff Api.
Local Open Scope eff_scope.

Record World : Type := {
  file : option File;
  isProcessing : bool;
  downloads : list Page.Download;
  alerts : list string;
  requests : list Request;
  console : list string;
  node_env : string;
  network : Network;
  now_iso : string
}.

Definition setIsProcessing (b : bool) : M World unit :=
  modify (fun w =>
    {| file := file w; isProcessing := b; downloads := downloads w;
       alerts := alerts w; requests := requests w; console := console w;
       node_env := node_env w; network := network w; now_iso := now_iso w |}).

Definition console_write (msg : string) : M World unit :=
  modify (fun w =>
    {| file := file w; isProcessing := isProcessing w; downloads := downloads w;
       alerts := alerts w; requests := requests w;
       console := console w ++ [msg];
       node_env := node_env w; network := network w; now_iso := now_iso w |}).

Definition alert (msg : string) : M World unit :=
  modify (fun w =>
    {| file := file w; isProcessing := isProcessing w; downloads := downloads w;
       alerts := alerts w ++ [msg]; requests := requests w;
       console := console w;
       node_env := node_env w; network := network w; now_iso := now_iso w |}).

Definition click (d : Page.Download) : M World unit :=
  modify (fun w =>
    {| file := file w; isProcessing := isProcessing w;
       downloads := downloads w ++ [d];
       alerts := alerts w; requests := requests w; console := console w;
       node_env := node_env w; network := network w; now_iso := now_iso w |}).

Definition fetch (req : Request) : M World Response :=
  fun w =>
    (network w req,
     {| file := file w; isProcessing := isProcessing w; downloads := downloads w;
        alerts := alerts w; requests := requests w ++ [req];
        console := console w;
        node_env := node_env w; network := network w; now_iso := now_iso w |}).

Definition response_json (r : Response) : M World Payload :=
  fun w => (json r, w).

(** [`pci_requirements_${timestamp}.json`] *)
Definition fileName (iso : string) : string :=
  "pci_requirements_" ++ Page.timestamp_of iso ++ ".json".

Definition msg_done (n : nat) (name_ : string) : string :=
  "Extraction terminée! " ++ Js.of_Z (Z.of_nat n) ++ " exigences extraites."
  ++ Page.newline ++ "Fichier téléchargé: " ++ name_.

Definition msg_none : string := "Aucune exigence PCI DSS trouvée dans le PDF.".

(** [error instanceof Error ? error.message : 'Erreur inconnue'] inside the
    alert of the [catch]. *)
Definition msg_failed (e : exn) : string :=
  "Erreur lors du traitement du PDF: "
  ++ match e with
     | ErrorObj m => m
     | NonError => "Erreur inconnue"
     end.

(** The body of the [try] block of [processFile]. *)
Definition process (f : File) : M World unit :=
  console_write "FormData created, sending request..." ;;;
  url_ <- gets (fun w => apiUrl (node_env w)) ;;
  response <- fetch {| url := url_; method := "POST"; body := f |} ;;
  console_write "Response received:" ;;;
  (if negb (ok response)
   then errorData <- response_json response ;;
        throw (ErrorObj ("Server error: "
                         ++ or_else (Api.error errorData) (statusText response)))
   else ret tt) ;;;
  data <- response_json response ;;
  console_write "Data received:" ;;;
  match requirements data with
  | Some (r :: rs) =>
      console_write "Found requirements" ;;;
      iso <- gets now_iso ;;
      click {| Page.download := fileName iso;
               Page.blob_type := "application/json";
               Page.blob := Page.Stringified (r :: rs) |} ;;;
      console_write "JSON downloaded as:" ;;;
      alert (msg_done (List.length (r :: rs)) (fileName iso))
  | _ =>
      console_write "No requirements found in response" ;;;
      alert msg_none
  end.

Definition processFile : M World unit :=
  selected <- gets file ;;
  match selected with
  | None => console_write "No file selected"
  | Some f =>
      console_write "Starting PDF processing..." ;;;
      setIsProcessing true ;;;
      try_catch (process f)
        (fun e => console_write "Error processing file:" ;;;
                  alert (msg_failed e)) ;;;
      setIsProcessing false
  end.

(** A page with a file selected. *)
Definition selected (net : Network) : World :=
  {| file := Some {| name := "saq.pdf"; type := "application/pdf"; size := 10 |};
     isProcessing := false; downloads := []; alerts := [];
     requests := []; console := []; node_env := "production";
     network := net; now_iso := "2024-01-15T10:30:45.123Z" |}.

End AlertPage.

(** ** Strings character by character *)

Module Chars.

(** Every character of [s] satisfies [p]. *)
Fixpoint all_chars (p : ascii -> bool) (s : string) : bool :=
  match s with
  | EmptyString => true
  | String c rest => p c && all_chars p rest
  end.

(** The characters the clean-up of [POST] leaves in a file name. *)
Definition filename_char (c : ascii) : bool :=
  Js.is_lower c || Js.is_upper c || Js.is_digit c
  || Ascii.eqb c "." || Ascii.eqb c "-" || Ascii.eqb c "_".

Definition not_slash (c : ascii) : bool := negb (Ascii.eqb c "/").

Definition not_colon_or_dot (c : ascii) : bool := negb (Page.colon_or_dot c).

End Chars.

(** ** Texts the checks below run on *)

Module Samples.

Definition nl : string := Page.newline.

(** Scenario A of the spec, a line for each part. *)
Definition scenario_a : string :=
  "1.1 Install and maintain network security controls" ++ nl ++
  "Testing Procedures: 1.1.a Examine documentation" ++ nl ++
  "Guidance: Ensure all controls are known".

(** Scenario B, the French analog. *)
Definition scenario_b : string :=
  "2.3 Chiffrer les données de titulaires de carte" ++ nl ++
  "Procédures de test : 2.3.a Examiner la configuration" ++ nl ++
  "Conseils : Assurez-vous que le chiffrement est en place".

(** Scenario D: guidance and no test procedure. *)
Definition scenario_d : string :=
  "3.1 Keep cardholder data storage to a mini-" ++ nl ++
  "mum" ++ nl ++
  "Guidance: Ensure retention is" ++ nl ++
  "limited".

(** Front matter, then requirements, one identifier twice. *)
Definition with_duplicates : string :=
  "Table of contents" ++ nl ++
  "2.1 First" ++ nl ++
  "1.1 Second" ++ nl ++
  "some more text" ++ nl ++
  "2.1 First again" ++ nl ++
  "Guidance: Ensure".

Definition no_keywords : string := "Lorem ipsum dolor sit amet".

Definition no_markers : string :=
  "Payment Card Industry" ++ nl ++ "Data Security Standard".

End Samples.

(** * Properties *)

(** Running a handler: the monad's operations unfolded and the matches on
    what they return reduced. *)
Ltac eff_run :=
  unfold Eff.bind, Eff.try_catch, Eff.return_if, Eff.gets, Eff.modify,
    Eff.ret, Eff.throw;
  cbv beta iota.

(** ** The convert-pdf endpoint *)

Section ConvertPdfProperties.
Import Eff ConvertPdf.

Example POST_sample :
  fst (POST (post_of sample_pdf) fresh_world)
  = Done {| status := 200;
            body := ConversionBody "rapport final.pdf" mockImages
                      "/api/download-images?id=1700000000000" |}
  /\ files (snd (POST (post_of sample_pdf) fresh_world))
     = [("/app/public/uploads/1700000000000-rapport_final.pdf", "%PDF-1.7")].
Proof. split; vm_compute; reflexivity. Qed.

Lemma POST_checked (w : World) (request : NextRequest) (fd : FormData) (f : File) :
  form request = Some fd ->
  formData_get fd "pdf" = Some (FileEntry f) ->
  type f = "application/pdf" ->
  POST request w
  = try_catch (convert f)
      (fun _ => Eff.bind (console_error "Conversion error:")
                  (fun _ => ret conversion_failed)) w.
Proof.
  intros Hform Hget Htype.
  unfold POST, try_catch, Eff.bind, request_formData, return_if.
  rewrite Hform. cbn [ret]. rewrite Hget. cbn [not_file type_differs].
  rewrite Htype. reflexivity.
Qed.

Lemma convert_saves (w : World) (f : File) :
  saves w f = true ->
  fst (convert f w) = Done (converted w f)
  /\ files (snd (convert f w)) = (filepath_of w f, bytes f) :: files w.
Proof.
  unfold saves, filepath_of, converted, convert, existsSync, mkdir,
    Date_now, writeFile, setTimeout, json_response.
  eff_run.
  destruct (existsb (String.eqb (uploadsDir_of w)) (dirs w)) eqn:Hdir;
    cbn [negb orb andb].
  - destruct (fs_denied w (join [uploadsDir_of w; filename_of (clock w) f])) eqn:Hfile;
      cbn [negb]; [discriminate | intros _].
    cbn [fst snd files]. split; reflexivity.
  - destruct (fs_denied w (uploadsDir_of w)) eqn:Hmk; cbn [negb andb];
      [discriminate |].
    cbn [cwd dirs files fs_denied clock timers console].
    destruct (fs_denied w (join [uploadsDir_of w; filename_of (clock w) f])) eqn:Hfile;
      cbn [negb]; [discriminate | intros _].
    cbn [fst snd files]. split; reflexivity.
Qed.

Lemma convert_refused (w : World) (f : File) :
  saves w f = false ->
  exists e w', convert f w = (Raise e, w') /\ files w' = files w.
Proof.
  unfold saves, filepath_of, convert, existsSync, mkdir,
    Date_now, writeFile, setTimeout, json_response.
  eff_run.
  destruct (existsb (String.eqb (uploadsDir_of w)) (dirs w)) eqn:Hdir;
    cbn [negb orb andb].
  - destruct (fs_denied w (join [uploadsDir_of w; filename_of (clock w) f])) eqn:Hfile;
      cbn [negb]; [intros _ | discriminate].
    eexists; eexists; split; reflexivity.
  - destruct (fs_denied w (uploadsDir_of w)) eqn:Hmk; cbn [negb andb].
    + intros _. eexists; eexists; split; reflexivity.
    + cbn [cwd dirs files fs_denied clock timers console].
      destruct (fs_denied w (join [uploadsDir_of w; filename_of (clock w) f])) eqn:Hfile;
        cbn [negb]; [intros _ | discriminate].
      eexists; eexists; split; reflexivity.
Qed.

(** C7, as amended. For every valid PDF POST the answer is one of two
    fixed responses and never depends on the PDF's content: when the
    uploads directory and the file can be written it is the 200 body with
    the same list of exactly three placeholder image URLs; when the file
    system refuses, it is the 500 error body, which has no image list, and
    no file was written. *)
Theorem POST_valid_pdf (w : World) (request : NextRequest) (f : File) :
  valid_pdf_post request f ->
  fst (POST request w)
  = Done (if saves w f then converted w f else conversion_failed)
  /\ images_of (converted w f) = Some mockImages
  /\ List.length mockImages = 3
  /\ images_of conversion_failed = None
  /\ (saves w f = false -> files (snd (POST request w)) = files w).
Proof.
  intros (fd & Hform & Hget & Htype).
  rewrite (POST_checked w request fd f Hform Hget Htype).
  unfold try_catch.
  destruct (saves w f) eqn:Hs.
  - destruct (convert_saves w f Hs) as [Hr _].
    destruct (convert f w) as [[r | e] w']; cbn [fst] in Hr; try discriminate.
    cbn [fst]. split; [exact Hr |].
    repeat split. discriminate.
  - destruct (convert_refused w f Hs) as (e & w' & Hc & Hfiles).
    rewrite Hc. cbn. repeat split. intros _. exact Hfiles.
Qed.

Lemma POST_valid_pdf_witness :
  valid_pdf_post (post_of sample_pdf) sample_pdf
  /\ fst (POST (post_of sample_pdf) fresh_world)
     = Done (converted fresh_world sample_pdf)
  /\ fst (POST (post_of other_pdf) fresh_world)
     = Done (converted fresh_world other_pdf)
  /\ images_of (converted fresh_world sample_pdf)
     = images_of (converted fresh_world other_pdf).
Proof.
  assert (Hv : forall f, type f = "application/pdf" ->
                         valid_pdf_post (post_of f) f).
  { intros f Hf. exists [("pdf", FileEntry f)].
    split; [reflexivity | split; [reflexivity | exact Hf]]. }
  split; [apply Hv; reflexivity |].
  split; [exact (proj1 (POST_valid_pdf fresh_world (post_of sample_pdf)
                          sample_pdf (Hv sample_pdf eq_refl))) |].
  split; [exact (proj1 (POST_valid_pdf fresh_world (post_of other_pdf)
                          other_pdf (Hv other_pdf eq_refl))) |].
  reflexivity.
Defined.

(** C7 without the condition on the file system fails where the file
    system is read-only: the POST is a valid PDF POST and the answer is the
    500 error body, with no image list in it. *)
Lemma POST_valid_pdf_no_images :
  valid_pdf_post (post_of sample_pdf) sample_pdf
  /\ fst (POST (post_of sample_pdf) readonly_world) = Done conversion_failed
  /\ images_of conversion_failed <> Some mockImages.
Proof.
  split.
  - exists [("pdf", FileEntry sample_pdf)].
    split; [reflexivity | split; reflexivity].
  - split; [vm_compute; reflexivity | discriminate].
Qed.

(** C10. A POST whose form data has no [pdf] entry, or whose [pdf] file
    is not of MIME type [application/pdf], is answered with status 400
    and an error body, and the handler leaves the whole server state as
    it was: no directory is made and no file is written. *)
Theorem POST_rejects (w : World) (request : NextRequest) (fd : FormData) :
  form request = Some fd ->
  formData_get fd "pdf" = None
  \/ (exists f, formData_get fd "pdf" = Some (FileEntry f)
                /\ type f <> "application/pdf") ->
  exists msg,
    POST request w = (Done {| status := 400; body := ErrorBody msg |}, w).
Proof.
  intros Hform Hbad.
  unfold POST, try_catch, Eff.bind, request_formData, return_if.
  rewrite Hform. cbn [ret].
  destruct Hbad as [Hnone | (f & Hget & Htype)].
  - rewrite Hnone. cbn. eexists; reflexivity.
  - rewrite Hget. cbn [not_file type_differs].
    destruct (String.eqb_spec (type f) "application/pdf") as [Heq | Hne];
      [contradiction |].
    cbn. eexists; reflexivity.
Qed.

Lemma POST_rejects_witness :
  (exists msg, POST empty_post fresh_world
               = (Done {| status := 400; body := ErrorBody msg |}, fresh_world))
  /\ (exists msg, POST (post_of sample_png) fresh_world
                  = (Done {| status := 400; body := ErrorBody msg |}, fresh_world)).
Proof.
  split.
  - apply (POST_rejects fresh_world empty_post []);
      [reflexivity | left; reflexivity].
  - apply (POST_rejects fresh_world (post_of sample_png)
             [("pdf", FileEntry sample_png)]);
      [reflexivity | right; exists sample_png; split; [reflexivity | discriminate]].
Defined.

End ConvertPdfProperties.

(** ** The upload form *)

Section UploadFormProperties.
Import Eff Api UploadForm.

Example handleFiles_empty_answer :
  let w := snd (handleFiles (Some [sample_pdf]) (mounted empty_answer)) in
  state w = Error
  /\ UploadForm.error w = Some "Aucune exigence PCI DSS trouvée dans le PDF"
  /\ result w = None
  /\ timers w = [(5000%Z, ClearError)]
  /\ List.length (requests w) = 1.
Proof. vm_compute. repeat split. Qed.

(** [handleFiles] settles: whatever the files and whatever the network
    does, the promise it returns is fulfilled, never rejected. *)
Lemma handleFiles_settles (files : option (list File)) (w : World) :
  fst (handleFiles files w) = Done tt.
Proof.
  destruct files as [[| file rest] |]; try reflexivity.
  unfold handleFiles. eff_run.
  destruct (negb (type file =? "application/pdf")%string); [reflexivity |].
  destruct (max_size <? size file)%Z; [reflexivity |].
  unfold upload, fetch, response_json, setState, setResult, setError,
    setTimeout, console_error.
  eff_run. cbn [state error result timers requests console node_env network].
  destruct (network w (extraction_request _ file)) as [response | e];
    [| reflexivity].
  destruct (ok response); cbn [negb].
  - destruct (json response) as [data | e]; [| reflexivity].
    destruct (requirements data) as [[| r rs] |]; reflexivity.
  - destruct (json response) as [data | e]; reflexivity.
Qed.

(** C8. When the first file of the list is not of MIME type
    [application/pdf], or is larger than 50 * 1024 * 1024 bytes,
    [handleFiles] enters the error state with the matching message and
    returns: no request was issued and the stored result is the one it
    found, so a result that was null is still null. *)
Theorem handleFiles_rejects (w : World) (file : File) (rest : list File) :
  type file <> "application/pdf" \/ (50 * 1024 * 1024 < size file)%Z ->
  let w' := snd (handleFiles (Some (file :: rest)) w) in
  fst (handleFiles (Some (file :: rest)) w) = Done tt
  /\ state w' = Error
  /\ UploadForm.error w'
     = Some (if (type file =? "application/pdf")%string
             then msg_too_large else msg_not_pdf)
  /\ requests w' = requests w
  /\ result w' = result w
  /\ (result w = None -> result w' = None).
Proof.
  intros Hbad w'. subst w'.
  split; [apply handleFiles_settles |].
  unfold handleFiles. eff_run.
  destruct (String.eqb_spec (type file) "application/pdf") as [Heq | Hne];
    cbn [negb].
  - destruct Hbad as [Hne | Hsize]; [contradiction |].
    assert (Hlt : (max_size <? size file)%Z = true)
      by (apply Z.ltb_lt; exact Hsize).
    rewrite Hlt.
    cbn. repeat split; trivial.
  - cbn. repeat split; trivial.
Qed.

Lemma handleFiles_rejects_witness :
  (state (snd (handleFiles (Some [sample_doc]) (mounted empty_answer))) = Error
   /\ requests (snd (handleFiles (Some [sample_doc]) (mounted empty_answer))) = []
   /\ result (snd (handleFiles (Some [sample_doc]) (mounted empty_answer))) = None)
  /\ (state (snd (handleFiles (Some [huge_pdf]) (mounted empty_answer))) = Error
      /\ requests (snd (handleFiles (Some [huge_pdf]) (mounted empty_answer))) = []
      /\ result (snd (handleFiles (Some [huge_pdf]) (mounted empty_answer))) = None).
Proof.
  split.
  - assert (Hbad : type sample_doc <> "application/pdf"
                   \/ (50 * 1024 * 1024 < size sample_doc)%Z)
      by (left; discriminate).
    pose proof (handleFiles_rejects (mounted empty_answer) sample_doc [] Hbad)
      as (_ & Hst & _ & Hreq & _ & Hres).
    split; [exact Hst | split; [exact Hreq | exact (Hres eq_refl)]].
  - assert (Hbad : type huge_pdf <> "application/pdf"
                   \/ (50 * 1024 * 1024 < size huge_pdf)%Z)
      by (right; reflexivity).
    pose proof (handleFiles_rejects (mounted empty_answer) huge_pdf [] Hbad)
      as (_ & Hst & _ & Hreq & _ & Hres).
    split; [exact Hst | split; [exact Hreq | exact (Hres eq_refl)]].
Defined.

(** The error state is left when its timer fires; the stored result is not
    touched. *)
Example rejected_then_cleared :
  let w := snd (handleFiles (Some [sample_doc]) (mounted empty_answer)) in
  timers w = [(3000%Z, ClearError)]
  /\ state (snd (fire ClearError w)) = Idle
  /\ UploadForm.error (snd (fire ClearError w)) = None
  /\ result (snd (fire ClearError w)) = None.
Proof. vm_compute. repeat split. Qed.

(** The messages [handleFiles] can put in the error state by itself. *)
Lemma msg_no_requirements_distinct :
  msg_no_requirements <> msg_not_pdf
  /\ msg_no_requirements <> msg_too_large
  /\ msg_no_requirements <> msg_extraction
  /\ msg_no_requirements <> msg_extraction_pdf.
Proof. repeat split; discriminate. Qed.

(** C1. When the extraction answers with a requirements list of zero
    entries, [handleFiles] returns normally, in the error state, with the
    message that no requirement was found, which is none of its other
    messages; the run is not a success and no result is stored (the
    stored result is the one found, null when it was null). *)
Theorem handleFiles_no_requirements
  (w : World) (file : File) (rest : list File)
  (response : Response) (data : Payload) :
  type file = "application/pdf" ->
  (size file <= 50 * 1024 * 1024)%Z ->
  network w (extraction_request w file) = Done response ->
  ok response = true ->
  json response = Done data ->
  requirements data = Some [] ->
  let w' := snd (handleFiles (Some (file :: rest)) w) in
  fst (handleFiles (Some (file :: rest)) w) = Done tt
  /\ state w' = Error
  /\ UploadForm.error w' = Some msg_no_requirements
  /\ (msg_no_requirements <> msg_not_pdf
      /\ msg_no_requirements <> msg_too_large
      /\ msg_no_requirements <> msg_extraction
      /\ msg_no_requirements <> msg_extraction_pdf)
  /\ result w' = result w
  /\ (result w = None -> result w' = None).
Proof.
  intros Htype Hsize Hnet Hok Hjson Hreqs w'. subst w'.
  split; [apply handleFiles_settles |].
  unfold handleFiles. eff_run.
  rewrite Htype. cbn [String.eqb Ascii.eqb Bool.eqb negb].
  assert (Hle : (max_size <? size file)%Z = false)
    by (apply Z.ltb_ge; exact Hsize).
  rewrite Hle.
  unfold upload, fetch, response_json, setState, setResult, setError,
    setTimeout, console_error.
  eff_run. unfold extraction_request in *.
  cbn [state error result timers requests console node_env network].
  rewrite Hnet.
  rewrite Hok. cbn [negb]. rewrite Hjson, Hreqs.
  cbn. repeat split; trivial; discriminate.
Qed.

Lemma handleFiles_no_requirements_witness :
  state (snd (handleFiles (Some [sample_pdf]) (mounted empty_answer))) = Error
  /\ UploadForm.error (snd (handleFiles (Some [sample_pdf]) (mounted empty_answer)))
     = Some msg_no_requirements
  /\ result (snd (handleFiles (Some [sample_pdf]) (mounted empty_answer))) = None.
Proof.
  pose proof (handleFiles_no_requirements (mounted empty_answer) sample_pdf []
                {| ok := true; statusText := "OK";
                   json := Done {| Api.error := None; requirements := Some [];
                                   summary := None |} |}
                {| Api.error := None; requirements := Some [];
                   summary := None |}
                eq_refl ltac:(vm_compute; discriminate) eq_refl eq_refl
                eq_refl eq_refl)
    as (_ & Hst & Herr & _ & _ & Hres).
  split; [exact Hst | split; [exact Herr | exact (Hres eq_refl)]].
Defined.

End UploadFormProperties.

(** ** The downloads of the page *)

Section PageProperties.
Import Eff Api Page.

Example fileName_readme :
  fileName (Some french_report) (timestamp_of "2024-01-15T10:30:45.123Z") ".json"
  = "pci_requirements_fr_2024-01-15T10-30-45.json"
  /\ fileName None (timestamp_of "2024-01-15T10:30:45.123Z") ".json"
     = "pci_requirements_2024-01-15T10-30-45.json".
Proof. split; reflexivity. Qed.

Lemma last_snoc {A} (l : list A) (x d : A) : last (l ++ [x]) d = x.
Proof.
  induction l as [| a l IH]; [reflexivity |].
  cbn [app]. destruct (l ++ [x])%list eqn:E.
  - destruct l; discriminate.
  - cbn [last]. exact IH.
Qed.

Lemma suggested_downloadJSON (w : World) (items : list Requirement) :
  extractedData w = Some items ->
  suggested (snd (downloadJSON w))
  = Some (fileName (languageInfo w) (timestamp_of (now_iso w)) ".json").
Proof.
  intros Hdata. unfold downloadJSON, click. eff_run. rewrite Hdata.
  cbv beta iota. unfold suggested. cbn [snd downloads].
  rewrite map_app. cbn [map]. rewrite last_snoc. reflexivity.
Qed.

Lemma suggested_downloadCSV (w : World) (items : list Requirement) :
  extractedData w = Some items ->
  suggested (snd (downloadCSV w))
  = Some (fileName (languageInfo w) (timestamp_of (now_iso w)) ".csv").
Proof.
  intros Hdata. unfold downloadCSV, click. eff_run. rewrite Hdata.
  cbv beta iota. unfold suggested. cbn [snd downloads].
  rewrite map_app. cbn [map]. rewrite last_snoc. reflexivity.
Qed.

Lemma fileName_known (l : LanguageInfo) (c ts ext : string) :
  code l = Some c -> c <> "" ->
  fileName (Some l) ts ext = "pci_requirements_" ++ c ++ "_" ++ ts ++ ext.
Proof.
  intros Hc Hne. unfold fileName, languageSuffix. rewrite Hc.
  destruct (String.eqb_spec c "") as [He | _]; [contradiction |].
  reflexivity.
Qed.

Lemma fileName_unknown (info : option LanguageInfo) (ts ext : string) :
  info = None \/ (exists l, info = Some l /\ code l = None) ->
  fileName info ts ext = "pci_requirements_" ++ ts ++ ext.
Proof.
  intros [-> | (l & -> & Hc)]; unfold fileName, languageSuffix;
    [| rewrite Hc]; reflexivity.
Qed.

(** C2. Once an extraction has left its requirements in the page, the
    file name [downloadJSON] and [downloadCSV] suggest is
    [pci_requirements_] + code + [_] + timestamp + extension when the
    language report carries a code, and [pci_requirements_] + timestamp +
    extension, the code segment omitted, when there is no report or the
    report has no code. *)
Theorem download_fileName (w : World) (items : list Requirement) :
  extractedData w = Some items ->
  let ts := timestamp_of (now_iso w) in
  (forall l c,
      languageInfo w = Some l -> code l = Some c -> c <> "" ->
      suggested (snd (downloadJSON w))
      = Some ("pci_requirements_" ++ c ++ "_" ++ ts ++ ".json")
      /\ suggested (snd (downloadCSV w))
         = Some ("pci_requirements_" ++ c ++ "_" ++ ts ++ ".csv"))
  /\ (languageInfo w = None
      \/ (exists l, languageInfo w = Some l /\ code l = None) ->
      suggested (snd (downloadJSON w))
      = Some ("pci_requirements_" ++ ts ++ ".json")
      /\ suggested (snd (downloadCSV w))
         = Some ("pci_requirements_" ++ ts ++ ".csv")).
Proof.
  intros Hdata ts.
  rewrite (suggested_downloadJSON w items Hdata),
    (suggested_downloadCSV w items Hdata).
  fold ts. split.
  - intros l c Hl Hc Hne. rewrite Hl.
    rewrite !(fileName_known l c _ _ Hc Hne). split; reflexivity.
  - intros Hunknown.
    rewrite !(fileName_unknown _ _ _ Hunknown). split; reflexivity.
Qed.

Lemma download_fileName_witness :
  (suggested (snd (downloadJSON (extracted (Some french_report))))
   = Some "pci_requirements_fr_2024-01-15T10-30-45.json"
   /\ suggested (snd (downloadCSV (extracted (Some french_report))))
      = Some "pci_requirements_fr_2024-01-15T10-30-45.csv")
  /\ (suggested (snd (downloadJSON (extracted None)))
      = Some "pci_requirements_2024-01-15T10-30-45.json"
      /\ suggested (snd (downloadCSV (extracted None)))
         = Some "pci_requirements_2024-01-15T10-30-45.csv").
Proof.
  split.
  - apply (proj1 (download_fileName (extracted (Some french_report))
                    two_requirements eq_refl) french_report "fr");
      [reflexivity | reflexivity | discriminate].
  - apply (proj2 (download_fileName (extracted None) two_requirements eq_refl)).
    left. reflexivity.
Defined.

Example csvContent_two :
  csvContent two_requirements
  = "reqid,pci_requirement_fr,tp,guidance" ++ newline
    ++ String dquote "1.1.1" ++ String dquote "," ++ String dquote "Roles are "
    ++ String dquote (String dquote "documented")
    ++ String dquote (String dquote (String dquote ","))
    ++ String dquote "Examine documentation; Interview personnel"
    ++ String dquote "," ++ String dquote (String dquote newline)
    ++ String dquote "1.1.1" ++ String dquote "," ++ String dquote "Second mention"
    ++ String dquote "," ++ String dquote (String dquote ",")
    ++ String dquote "Line one" ++ newline ++ "line two, with a comma"
    ++ String dquote "".
Proof. vm_compute. reflexivity. Qed.

Lemma or_empty_id (s : string) : Js.or_empty s = s.
Proof.
  unfold Js.or_empty. destruct (String.eqb_spec s "") as [-> | _]; reflexivity.
Qed.

Lemma join_concat (sep : string) (parts : list string) :
  Js.join sep parts = String.concat sep parts.
Proof.
  induction parts as [| p rest IH]; [reflexivity |].
  destruct rest as [| q rest]; [reflexivity |].
  change (p ++ sep ++ Js.join sep (q :: rest)
          = p ++ sep ++ String.concat sep (q :: rest)).
  rewrite IH. reflexivity.
Qed.

Lemma replace_doubled (s : string) :
  Js.replace_class is_dquote (String dquote (String dquote EmptyString)) s
  = CsvSpec.doubled s.
Proof.
  induction s as [| c rest IH]; [reflexivity |].
  cbn [Js.replace_class CsvSpec.doubled]. unfold is_dquote at 1.
  destruct (Ascii.eqb c dquote); rewrite IH; reflexivity.
Qed.

Lemma quoted_wrapped (s : string) : quoted s = CsvSpec.wrapped s.
Proof. unfold quoted, CsvSpec.wrapped. rewrite replace_doubled. reflexivity. Qed.

Lemma csv_line_row (r : Requirement) : csv_line r = CsvSpec.row r.
Proof.
  unfold csv_line, CsvSpec.row, CsvSpec.cells.
  rewrite !or_empty_id, !quoted_wrapped, !join_concat. reflexivity.
Qed.

Lemma join_lines (h : string) (items : list Requirement) :
  Js.join newline (h :: map csv_line items) = h ++ CsvSpec.rows items.
Proof.
  revert h. induction items as [| r rest IH]; intros h.
  - cbn. induction h as [| c h IHh]; [reflexivity |].
    cbn. rewrite <- IHh. reflexivity.
  - change (h ++ newline ++ Js.join newline (csv_line r :: map csv_line rest)
            = h ++ newline ++ CsvSpec.row r ++ CsvSpec.rows rest).
    rewrite IH, csv_line_row. reflexivity.
Qed.

Lemma csvContent_document (items : list Requirement) :
  csvContent items = CsvSpec.document items.
Proof. unfold csvContent. rewrite join_lines. reflexivity. Qed.

Lemma append_assoc (a b c : string) : (a ++ b) ++ c = a ++ b ++ c.
Proof. induction a as [| x a IH]; [reflexivity | cbn; rewrite IH; reflexivity]. Qed.

Lemma read_quoted (v : string) :
  forall cur rec rest,
    CsvReader.read CsvReader.Quoted cur rec
      (CsvSpec.doubled v ++ String dquote rest)
    = CsvReader.read CsvReader.Closed (cur ++ v) rec rest.
Proof.
  induction v as [| c v IH]; intros cur rec rest.
  - cbn. replace (cur ++ "") with cur; [reflexivity |].
    induction cur as [| x cur IHc]; [reflexivity | cbn; rewrite <- IHc; reflexivity].
  - cbn [CsvSpec.doubled].
    destruct (Ascii.eqb c dquote) eqn:Hc.
    + apply Ascii.eqb_eq in Hc. subst c.
      cbn [append CsvReader.read]. unfold is_dquote.
      rewrite Ascii.eqb_refl. rewrite IH, append_assoc. reflexivity.
    + cbn [append CsvReader.read]. unfold is_dquote. rewrite Hc.
      rewrite IH, append_assoc. reflexivity.
Qed.

Lemma read_wrapped (v : string) (rec : list string) (rest : string) :
  CsvReader.read CsvReader.Bare "" rec (CsvSpec.wrapped v ++ rest)
  = CsvReader.read CsvReader.Closed v rec rest.
Proof.
  unfold CsvSpec.wrapped. cbn [append CsvReader.read].
  unfold is_dquote at 1. rewrite Ascii.eqb_refl. cbn [andb String.eqb].
  rewrite append_assoc. cbn [append]. rewrite read_quoted. reflexivity.
Qed.

Lemma read_closed_comma (cur : string) (rec : list string) (rest : string) :
  CsvReader.read CsvReader.Closed cur rec ("," ++ rest)
  = CsvReader.read CsvReader.Bare "" (rec ++ [cur])%list rest.
Proof. reflexivity. Qed.

Lemma read_row (r : Requirement) (rest : string) :
  CsvReader.read CsvReader.Bare "" [] (CsvSpec.row r ++ rest)
  = CsvReader.read CsvReader.Closed (guidance r)
      [req_num r; text r; String.concat "; " (tests r)] rest.
Proof.
  unfold CsvSpec.row, CsvSpec.cells. cbn [map String.concat].
  rewrite !append_assoc.
  rewrite read_wrapped, read_closed_comma.
  rewrite read_wrapped, read_closed_comma.
  rewrite read_wrapped, read_closed_comma.
  rewrite read_wrapped. reflexivity.
Qed.

Lemma read_rows (items : list Requirement) :
  forall st cur rec,
    st <> CsvReader.Quoted ->
    CsvReader.read st cur rec (CsvSpec.rows items)
    = (rec ++ [cur])%list :: map CsvSpec.cells items.
Proof.
  induction items as [| r items IH]; intros st cur rec Hst.
  - destruct st; reflexivity.
  - cbn [CsvSpec.rows map]. unfold newline. cbn [append].
    assert (Hnl : CsvReader.read st cur rec
                    (String "010" (CsvSpec.row r ++ CsvSpec.rows items))
                  = (rec ++ [cur])%list
                    :: CsvReader.read CsvReader.Bare "" []
                         (CsvSpec.row r ++ CsvSpec.rows items)).
    { destruct st; [reflexivity | contradiction | reflexivity]. }
    rewrite Hnl, read_row, IH; [reflexivity | discriminate].
Qed.

Lemma read_header (rest : string) :
  CsvReader.read CsvReader.Bare "" [] (CsvSpec.header ++ rest)
  = CsvReader.read CsvReader.Bare "guidance"
      ["reqid"; "pci_requirement_fr"; "tp"] rest.
Proof. vm_compute. reflexivity. Qed.

(** What [downloadCSV] writes reads back as the header record followed by
    exactly one record for each requirement, in sequence order, with the
    four fields of the requirement, whatever commas, quotes and line
    breaks the fields hold. *)
Theorem csvContent_reads_back (items : list Requirement) :
  CsvReader.records (csvContent items)
  = headers :: map CsvSpec.cells items.
Proof.
  rewrite csvContent_document. unfold CsvSpec.document, CsvReader.records.
  rewrite read_header, read_rows; [reflexivity | discriminate].
Qed.

(** C9. For every extracted requirement list, the CSV [downloadCSV]
    hands to the browser is the header line
    [reqid,pci_requirement_fr,tp,guidance] followed by one row for each
    requirement, in sequence order; in a row every field is wrapped in
    double quotes with its own double quotes doubled, and the tests make
    one field, joined with a semicolon and a space. Read back, the text
    gives the header and exactly one record for each requirement. *)
Theorem downloadCSV_document (w : World) (items : list Requirement) :
  extractedData w = Some items ->
  downloads (snd (downloadCSV w))
  = (downloads w
     ++ [ {| download := fileName (languageInfo w) (timestamp_of (now_iso w)) ".csv";
             blob_type := "text/csv;charset=utf-8;";
             blob := Text (CsvSpec.document items) |} ])%list
  /\ CsvReader.records (CsvSpec.document items)
     = headers :: map CsvSpec.cells items.
Proof.
  intros Hdata. split.
  - unfold downloadCSV, click. eff_run. rewrite Hdata.
    cbv beta iota. cbn [snd downloads]. rewrite csvContent_document.
    reflexivity.
  - rewrite <- csvContent_document. apply csvContent_reads_back.
Qed.

Lemma downloadCSV_document_witness :
  downloads (snd (downloadCSV (extracted None)))
  = [ {| download := "pci_requirements_2024-01-15T10-30-45.csv";
         blob_type := "text/csv;charset=utf-8;";
         blob := Text (CsvSpec.document two_requirements) |} ]
  /\ List.length (CsvReader.records (CsvSpec.document two_requirements)) = 3.
Proof.
  destruct (downloadCSV_document (extracted None) two_requirements eq_refl)
    as [Hd Hr].
  split; [exact Hd | rewrite Hr; reflexivity].
Defined.

(** Running [processFile] on a page whose fields are known. *)
Ltac page_run :=
  cbv beta iota delta
    [processFile process fetch response_json console_write setIsProcessing
     setExtractedData setLanguageInfo
     Eff.bind Eff.try_catch Eff.return_if Eff.gets Eff.modify Eff.ret Eff.throw
     file isProcessing isDragging extractedData languageInfo downloads
     requests console node_env network now_iso fst snd].

(** A completed extraction: [processFile] on an answer with requirements
    stores them, and stores the language report when the summary has one. *)
Lemma processFile_completed
  (w : World) (f : File) (response : Response) (data : Payload)
  (r : Requirement) (rs : list Requirement) :
  file w = Some f ->
  network w {| url := apiUrl (node_env w); method := "POST"; body := f |}
  = Done response ->
  ok response = true ->
  json response = Done data ->
  requirements data = Some (r :: rs) ->
  fst (processFile w) = Done tt
  /\ extractedData (snd (processFile w)) = Some (r :: rs)
  /\ languageInfo (snd (processFile w))
     = match summary data with
       | Some s => match language_detection s with
                   | Some l => Some l
                   | None => languageInfo w
                   end
       | None => languageInfo w
       end.
Proof.
  intros Hfile Hnet Hok Hjson Hreqs.
  destruct w as [wfile wproc wdrag wdata wlang wdl wreq wcon wenv wnet wnow].
  cbn [file node_env network languageInfo] in *. subst wfile.
  page_run. rewrite Hnet. page_run. rewrite Hok. page_run.
  rewrite Hjson. page_run. rewrite Hreqs. page_run.
  destruct (summary data) as [s |]; [destruct (language_detection s) |];
    page_run; repeat split.
Qed.

(** [processFile], the handler of the page with the downloads, on an answer
    with an empty requirements list: nothing is stored, the warning is
    logged and the promise is fulfilled. *)
Example processFile_empty_answer :
  fst (processFile selected) = Done tt
  /\ extractedData (snd (processFile selected)) = None
  /\ languageInfo (snd (processFile selected)) = None
  /\ isProcessing (snd (processFile selected)) = false
  /\ last (console (snd (processFile selected))) ""
     = "No requirements found in response".
Proof. vm_compute. repeat split. Qed.

End PageProperties.

(** ** The language detector *)

Section DetectorProperties.
Import Detector.

Example detect_scenario_b :
  code (detect substring_occurrences Samples.scenario_b) = "fr"
  /\ (confidence (detect substring_occurrences Samples.scenario_b) == 3 # 4)%Q.
Proof. split; vm_compute; reflexivity. Qed.

Example detect_scenario_a :
  code (detect substring_occurrences Samples.scenario_a) = "en"
  /\ (confidence (detect substring_occurrences Samples.scenario_a) == 1)%Q.
Proof. split; vm_compute; reflexivity. Qed.

Variable occurrences : string -> string -> nat.

Lemma no_hits (text : string) (kws : list string) :
  existsb (fun kw => negb (occurrences kw text =? 0)%nat) kws = false ->
  list_sum (map (fun kw => occurrences kw text) kws) = 0.
Proof.
  unfold list_sum.
  induction kws as [| kw kws IH]; [reflexivity |].
  cbn [existsb map fold_right]. intros H.
  apply orb_false_iff in H. destruct H as [Hkw Hrest].
  apply negb_false_iff, Nat.eqb_eq in Hkw.
  rewrite Hkw, (IH Hrest). reflexivity.
Qed.

Lemma unrecognised_hits (text : string) :
  recognises occurrences text = false ->
  hits occurrences French text = 0 /\ hits occurrences English text = 0.
Proof.
  unfold recognises, hits. rewrite existsb_app. intros H.
  apply orb_false_iff in H. destruct H as [Hfr Hen].
  split; apply no_hits; assumption.
Qed.

Variable grammar_of : Language -> Extractor.Grammar.

(** C4. For every text in which no keyword of either lexicon occurs,
    [detect] returns the French result, code [fr], with confidence 0, and
    the run goes on with the French extractor. *)
Theorem detect_unrecognised (text : string) :
  recognises occurrences text = false ->
  code (detect occurrences text) = "fr"
  /\ confidence (detect occurrences text) = 0%Q
  /\ detect occurrences text = describe French 0%Q
  /\ Orchestrator.requirements (Orchestrator.run occurrences grammar_of text)
     = Extractor.extract (grammar_of French) text.
Proof.
  intros H. destruct (unrecognised_hits text H) as [Hfr Hen].
  assert (Hd : detect occurrences text = describe French 0%Q).
  { unfold detect, winner, confidence_of. rewrite Hfr, Hen. reflexivity. }
  unfold Orchestrator.run. cbn [Orchestrator.requirements].
  rewrite Hd. repeat split.
Qed.

End DetectorProperties.

Lemma detect_unrecognised_witness :
  Detector.recognises Detector.substring_occurrences Samples.no_keywords = false
  /\ Detector.code (Detector.detect Detector.substring_occurrences Samples.no_keywords) = "fr"
  /\ Detector.confidence (Detector.detect Detector.substring_occurrences Samples.no_keywords) = 0%Q.
Proof.
  split; [vm_compute; reflexivity |].
  pose proof (detect_unrecognised Detector.substring_occurrences
                Grammars.of_language Samples.no_keywords eq_refl)
    as (Hc & Hq & _).
  split; [exact Hc | exact Hq].
Defined.

(** ** The requirement extractor *)

Section ExtractorProperties.
Import Json Extractor.

Example extract_scenario_a :
  extract Grammars.english Samples.scenario_a =
  [ [ ("req_num", JString "1.1");
      ("text", JString "Install and maintain network security controls");
      ("tests", JArray [JString "1.1.a Examine documentation"]);
      ("guidance", JString "Ensure all controls are known") ] ].
Proof. vm_compute. reflexivity. Qed.

Example extract_scenario_b :
  extract Grammars.french Samples.scenario_b =
  [ [ ("req_num", JString "2.3");
      ("text", JString "Chiffrer les données de titulaires de carte");
      ("tests", JArray [JString "2.3.a Examiner la configuration"]);
      ("guidance", JString "Assurez-vous que le chiffrement est en place") ] ].
Proof. vm_compute. reflexivity. Qed.

Example extract_scenario_c :
  extract Grammars.english Samples.no_markers = [].
Proof. vm_compute. reflexivity. Qed.

Example extract_scenario_d :
  extract Grammars.english Samples.scenario_d =
  [ [ ("req_num", JString "3.1");
      ("text", JString "Keep cardholder data storage to a minimum");
      ("tests", JArray []);
      ("guidance", JString "Ensure retention is limited") ] ].
Proof. vm_compute. reflexivity. Qed.

Example extract_with_duplicates :
  map req_num (extract Grammars.english Samples.with_duplicates)
  = ["2.1"; "1.1"; "2.1"].
Proof. vm_compute. reflexivity. Qed.

(** *** Dicts *)

Lemma lookup_assign_same (key : string) (v : json) (d : Requirement) :
  lookup key (assign key v d) = Some v.
Proof.
  induction d as [| [k x] d IH]; cbn [assign lookup].
  - rewrite String.eqb_refl. reflexivity.
  - destruct (k =? key)%string eqn:Hk; cbn [lookup]; rewrite Hk;
      [reflexivity | exact IH].
Qed.

Lemma lookup_assign_other (key other : string) (v : json) (d : Requirement) :
  other <> key -> lookup other (assign key v d) = lookup other d.
Proof.
  intros Hne. induction d as [| [k x] d IH]; cbn [assign lookup].
  - destruct (String.eqb_spec key other) as [He | _];
      [symmetry in He; contradiction | reflexivity].
  - destruct (String.eqb_spec k key) as [Hk | Hk]; cbn [lookup].
    + subst k. destruct (String.eqb_spec key other) as [He | _];
        [symmetry in He; contradiction | reflexivity].
    + rewrite IH. reflexivity.
Qed.

Lemma req_num_assign (key : string) (v : json) (d : Requirement) :
  key <> "req_num" -> req_num (assign key v d) = req_num d.
Proof.
  intros Hne. unfold req_num, text_at.
  rewrite lookup_assign_other; [reflexivity |].
  intros He. apply Hne. symmetry. exact He.
Qed.

(** *** The lines of a text *)

Lemma append_nil_r (s : string) : s ++ "" = s.
Proof. induction s as [| c s IH]; [reflexivity | cbn; rewrite IH; reflexivity]. Qed.

Lemma append_assoc_r (a b c : string) : (a ++ b) ++ c = a ++ b ++ c.
Proof. induction a as [| x a IH]; [reflexivity | cbn; rewrite IH; reflexivity]. Qed.



Lemma split_lines_nonempty (s cur : string) : split_lines s cur <> [].
Proof.
  revert cur. induction s as [| c s IH]; intros cur; cbn [split_lines];
    [discriminate |].
  destruct (Ascii.eqb c "010"); [discriminate | apply IH].
Qed.

Lemma join_split_lines (s cur : string) :
  Js.join Page.newline (split_lines s cur) = cur ++ s.
Proof.
  revert cur. induction s as [| c s IH]; intros cur; cbn [split_lines].
  - cbn [Js.join]. rewrite append_nil_r. reflexivity.
  - destruct (Ascii.eqb_spec c "010") as [-> | Hc].
    + pose proof (split_lines_nonempty s "") as Hne.
      pose proof (IH "") as Hj.
      destruct (split_lines s "") as [| x xs]; [contradiction |].
      change (cur ++ Page.newline ++ Js.join Page.newline (x :: xs)
              = cur ++ String "010" s).
      rewrite Hj. reflexivity.
    + rewrite IH, append_assoc_r. reflexivity.
Qed.

Lemma split_lines_single (s cur : string) :
  single_line cur = true -> forallb single_line (split_lines s cur) = true.
Proof.
  revert cur. induction s as [| c s IH]; intros cur Hcur; cbn [split_lines].
  - cbn. rewrite Hcur. reflexivity.
  - destruct (Ascii.eqb c "010") eqn:Hc.
    + cbn [forallb]. rewrite Hcur. apply IH. reflexivity.
    + apply IH. clear IH. induction cur as [| x cur IHc].
      * cbn. rewrite Hc. reflexivity.
      * cbn [single_line append] in *. apply andb_true_iff in Hcur.
        destruct Hcur as [Hx Hcur]. rewrite Hx, (IHc Hcur). reflexivity.
Qed.

(** Every text is the join of its lines: the lines [segments] gives are
    single lines, there is at least one, and joined by line feeds they
    give the text back. *)
Lemma text_is_its_lines (text : string) :
  segments text <> []
  /\ forallb single_line (segments text) = true
  /\ Js.join Page.newline (segments text) = text.
Proof.
  unfold segments. split; [apply split_lines_nonempty |].
  split; [apply split_lines_single; reflexivity | apply join_split_lines].
Qed.

Variable g : Grammar.

(** *** Markers *)

(** Consulting the grammar finds the first marker that matches. *)
Lemma classify_find (seg : string) :
  classify g seg
  = match find (matches seg) g with
    | Some m => option_map (fun cap => (kind m, cap)) (recognise m seg)
    | None => None
    end.
Proof.
  induction g as [| m rest IH]; [reflexivity |].
  cbn [classify find]. unfold matches at 1.
  destruct (recognise m seg) as [cap |] eqn:Hm.
  - rewrite Hm. reflexivity.
  - exact IH.
Qed.

Lemma started_by_classify (seg : string) :
  started_by g seg
  = match classify g seg with
    | Some (RequirementStart, (id, _)) => Some id
    | _ => None
    end.
Proof.
  rewrite classify_find. unfold started_by.
  destruct (find (matches seg) g) as [m |]; [| reflexivity].
  destruct (recognise m seg) as [[id rest] |]; destruct (kind m); reflexivity.
Qed.

(** *** The order of the output *)

Lemma close_within (st : Scanner) (r : Requirement) (m : Mode) :
  req_num r = req_num (current st) ->
  map req_num (close (within st r m)) = map req_num (close st).
Proof.
  intros H. unfold close, is_open, within. cbn [current emitted].
  rewrite H. destruct (negb (req_num (current st) =? "")%string);
    [| reflexivity].
  rewrite !map_app. cbn [map]. rewrite H. reflexivity.
Qed.

(** A segment that is not a requirement start leaves the emitted list
    and the identifier of the current requirement as they were. *)
Lemma step_keeps_identifiers (st : Scanner) (seg : string) :
  (forall cap, classify g seg <> Some (RequirementStart, cap)) ->
  map req_num (close (step g st seg)) = map req_num (close st).
Proof.
  intros Hn. unfold step.
  destruct (classify g seg) as [[k [head rest]] |] eqn:Hc.
  - destruct k; [exfalso; eapply Hn; reflexivity | | |];
      destruct (is_open (current st)) eqn:Ho; try reflexivity;
      cbn [on_marker].
    + destruct (trim rest =? "")%string; apply close_within;
        [reflexivity | apply req_num_assign; discriminate].
    + apply close_within. apply req_num_assign. discriminate.
    + apply close_within. apply req_num_assign. discriminate.
  - destruct (is_open (current st)) eqn:Ho; [| reflexivity].
    unfold on_plain. destruct (mode st); apply close_within;
      apply req_num_assign; discriminate.
Qed.

Lemma fold_identifiers (segs : list string) (st : Scanner) :
  map req_num (close (fold_left (step g) segs st))
  = (map req_num (close st)
     ++ filter nonempty (start_identifiers g segs))%list.
Proof.
  revert st. induction segs as [| seg segs IH]; intros st.
  - cbn. rewrite app_nil_r. reflexivity.
  - cbn [fold_left start_identifiers]. rewrite IH, started_by_classify.
    destruct (classify g seg) as [[k [id rest]] |] eqn:Hc.
    + destruct k.
      * unfold step. rewrite Hc. unfold close at 1.
        cbn [current emitted filter].
        change (is_open (open_requirement id rest)) with (nonempty id).
        destruct (nonempty id).
        -- rewrite map_app. cbn [map].
           change (req_num (open_requirement id rest)) with id.
           rewrite <- app_assoc. reflexivity.
        -- reflexivity.
      * rewrite step_keeps_identifiers; [reflexivity | congruence].
      * rewrite step_keeps_identifiers; [reflexivity | congruence].
      * rewrite step_keeps_identifiers; [reflexivity | congruence].
    + rewrite step_keeps_identifiers; [reflexivity | congruence].
Qed.

Lemma scan_identifiers (segs : list string) :
  map req_num (scan g segs) = filter nonempty (start_identifiers g segs).
Proof. unfold scan. rewrite fold_identifiers. reflexivity. Qed.


(** *** What every emitted requirement holds *)

Lemma Complete_open (id rest : string) : Complete (open_requirement id rest).
Proof. exists [], "". split; reflexivity. Qed.

Lemma Complete_assign_other (key : string) (v : json) (d : Requirement) :
  key <> "tests" -> key <> "guidance" ->
  Complete d -> Complete (assign key v d).
Proof.
  intros Ht Hg (ts & gd & Hts & Hgd). exists ts, gd.
  rewrite !lookup_assign_other; [split; assumption | |];
    intros He; [apply Hg | apply Ht]; symmetry; exact He.
Qed.

Lemma Complete_tests (d : Requirement) (ts : list string) :
  Complete d -> Complete (assign "tests" (JArray (map JString ts)) d).
Proof.
  intros (_ & gd & _ & Hgd). exists ts, gd.
  rewrite lookup_assign_same, lookup_assign_other; [| discriminate].
  split; [reflexivity | exact Hgd].
Qed.

Lemma Complete_guidance (d : Requirement) (gd : string) :
  Complete d -> Complete (assign "guidance" (JString gd) d).
Proof.
  intros (ts & _ & Hts & _). exists ts, gd.
  rewrite lookup_assign_same, lookup_assign_other; [| discriminate].
  split; [exact Hts | reflexivity].
Qed.

Lemma extend_last_strings (ts : list string) (seg : string) :
  exists ts', extend_last (map JString ts) seg = map JString ts'.
Proof.
  induction ts as [| e ts [ts' IH]]; [exists []; reflexivity |].
  destruct ts as [| e2 ts].
  - exists [join_words e seg]. reflexivity.
  - exists (e :: ts'). cbn [map extend_last] in *. rewrite IH. reflexivity.
Qed.

Lemma Complete_add_test (d : Requirement) (entry : string) :
  Complete d -> Complete (add_test d entry).
Proof.
  intros Hd. destruct Hd as (ts & gd & Hts & Hgd) eqn:E. clear E.
  unfold add_test, items_at. rewrite Hts.
  replace (map JString ts ++ [JString entry])%list
    with (map JString (ts ++ [entry])) by (rewrite map_app; reflexivity).
  apply Complete_tests. exists ts, gd. split; assumption.
Qed.

Lemma Complete_continue_test (d : Requirement) (seg : string) :
  Complete d -> Complete (continue_test d seg).
Proof.
  intros Hd. destruct Hd as (ts & gd & Hts & Hgd) eqn:E. clear E.
  unfold continue_test, items_at. rewrite Hts.
  destruct (extend_last_strings ts seg) as [ts' ->].
  apply Complete_tests. exists ts, gd. split; assumption.
Qed.

Lemma Sound_close (st : Scanner) : Sound st -> Forall Complete (close st).
Proof.
  intros [He Hc]. unfold close. destruct (is_open (current st)); [| exact He].
  apply Forall_app. split; [exact He | constructor; [apply Hc; reflexivity |]].
  constructor.
Qed.

Lemma Sound_within (st : Scanner) (r : Requirement) (m : Mode) :
  Sound st -> Complete r -> Sound (within st r m).
Proof. intros [He _] Hr. split; [exact He | intros _; exact Hr]. Qed.

Lemma Sound_step (st : Scanner) (seg : string) :
  Sound st -> Sound (step g st seg).
Proof.
  intros Hst. unfold step.
  destruct (classify g seg) as [[k [head rest]] |].
  - destruct k.
    + split; cbn [emitted current]; [apply Sound_close; exact Hst |].
      intros _. apply Complete_open.
    + destruct (is_open (current st)) eqn:Ho; [| exact Hst].
      cbn [on_marker]. destruct (trim rest =? "")%string;
        apply Sound_within; try exact Hst.
      * apply (proj2 Hst). exact Ho.
      * apply Complete_add_test. apply (proj2 Hst). exact Ho.
    + destruct (is_open (current st)) eqn:Ho; [| exact Hst].
      cbn [on_marker]. apply Sound_within; [exact Hst |].
      apply Complete_guidance. apply (proj2 Hst). exact Ho.
    + destruct (is_open (current st)) eqn:Ho; [| exact Hst].
      cbn [on_marker]. apply Sound_within; [exact Hst |].
      apply Complete_assign_other; try discriminate.
      apply (proj2 Hst). exact Ho.
  - destruct (is_open (current st)) eqn:Ho; [| exact Hst].
    unfold on_plain. pose proof (proj2 Hst Ho) as Hc.
    destruct (mode st); apply Sound_within; try exact Hst.
    + apply Complete_assign_other; try discriminate. exact Hc.
    + apply Complete_continue_test. exact Hc.
    + apply Complete_guidance. exact Hc.
    + apply Complete_assign_other; try discriminate. exact Hc.
Qed.

Lemma Sound_fold (segs : list string) (st : Scanner) :
  Sound st -> Sound (fold_left (step g) segs st).
Proof.
  revert st. induction segs as [| seg segs IH]; intros st Hst; [exact Hst |].
  cbn [fold_left]. apply IH. apply Sound_step. exact Hst.
Qed.

(** Every requirement the extractor emits holds its tests and its
    guidance, whatever the text and the grammar. *)
Lemma extract_complete (text : string) : Forall Complete (extract g text).
Proof.
  unfold extract, scan. apply Sound_close. apply Sound_fold.
  split; [constructor | discriminate].
Qed.

End ExtractorProperties.


(** For the two grammars of the scenarios a line starts a requirement
    exactly when it begins with a dotted identifier followed by white
    space, and the identifier is never empty: the output lists them all. *)
Lemma dotted_identifier_nonempty (seg id rest : string) :
  Grammars.dotted_identifier seg = Some (id, rest) -> Extractor.nonempty id = true.
Proof.
  unfold Grammars.dotted_identifier.
  destruct (Grammars.span Grammars.digit_or_dot (Extractor.trim_left seg))
    as [i r].
  destruct i as [| d i]; [discriminate |].
  destruct r as [| w r]; [discriminate |].
  destruct (Js.is_digit d && Extractor.is_space w); [| discriminate].
  intros H. injection H as <- _. reflexivity.
Qed.

Lemma started_by_scenario (l : Detector.Language) (seg : string) :
  Extractor.started_by (Grammars.of_language l) seg
  = option_map fst (Grammars.dotted_identifier seg).
Proof.
  unfold Extractor.started_by.
  destruct l;
    cbn [Grammars.of_language Grammars.english Grammars.french find];
    unfold Extractor.matches; cbn [Extractor.recognise Extractor.kind];
    destruct (Grammars.dotted_identifier seg) as [[id rest] |] eqn:Hd;
    cbn [Extractor.recognise Extractor.kind]; rewrite ?Hd;
    try reflexivity;
    repeat match goal with
           | |- context [match Grammars.keyword_prefix ?k ?s with _ => _ end] =>
               destruct (Grammars.keyword_prefix k s) as [[? ?] |];
               cbn [Extractor.recognise Extractor.kind]
           end;
    reflexivity.
Qed.

Lemma scenario_identifiers_nonempty (l : Detector.Language) (segs : list string) :
  filter Extractor.nonempty
    (Extractor.start_identifiers (Grammars.of_language l) segs)
  = Extractor.start_identifiers (Grammars.of_language l) segs.
Proof.
  induction segs as [| seg segs IH]; [reflexivity |].
  cbn [Extractor.start_identifiers]. rewrite started_by_scenario.
  destruct (Grammars.dotted_identifier seg) as [[id rest] |] eqn:Hd;
    cbn [option_map fst]; [| exact IH].
  cbn [filter]. rewrite (dotted_identifier_nonempty _ _ _ Hd), IH. reflexivity.
Qed.

Lemma extract_scenario_order (l : Detector.Language) (text : string) :
  map Extractor.req_num (Extractor.extract (Grammars.of_language l) text)
  = Extractor.start_identifiers (Grammars.of_language l)
      (Extractor.segments text).
Proof.
  unfold Extractor.extract. rewrite scan_identifiers.
  apply scenario_identifiers_nonempty.
Qed.

(** ** The output of the backend *)

Section OrchestratorProperties.
Import Json Orchestrator.

Example run_scenario_d :
  emitted_requirements
    (output_json (run Detector.substring_occurrences Grammars.of_language
                    Samples.scenario_d))
  = [ JObject [ ("req_num", JString "3.1");
                ("text", JString "Keep cardholder data storage to a minimum");
                ("tests", JArray []);
                ("guidance", JString "Ensure retention is limited") ] ].
Proof. vm_compute. reflexivity. Qed.

Example run_no_markers :
  emitted_requirements
    (output_json (run Detector.substring_occurrences Grammars.of_language
                    Samples.no_markers)) = []
  /\ Detector.code
       (language_detection (run Detector.substring_occurrences
                              Grammars.of_language Samples.no_markers)) = "fr".
Proof. split; vm_compute; reflexivity. Qed.

(** A dict the scan would never emit: it has an identifier and a text,
    and neither tests nor guidance. *)
Example incomplete_dict :
  ~ Extractor.Complete [("req_num", JString "1.1"); ("text", JString "Install")].
Proof. intros (ts & gd & Hts & _). discriminate Hts. Qed.

Lemma emitted_requirements_output (r : Result) :
  emitted_requirements (output_json r) = map requirement_json (requirements r).
Proof. reflexivity. Qed.

Lemma strings_are_strings (l : list string) :
  is_string_array (JArray (map JString l)) = true.
Proof.
  cbn [is_string_array]. induction l as [| s l IH]; [reflexivity |].
  cbn [map forallb is_string]. exact IH.
Qed.

Variable occurrences : string -> string -> nat.
Variable grammar_of : Detector.Language -> Extractor.Grammar.

(** C3. Every requirement object in the output of a run has a [tests]
    property that is an array of strings, possibly empty, and a
    [guidance] property that is a string, possibly empty; neither is ever
    missing or null, whatever the text, the grammar and the segments the
    scan met since the requirement was opened. *)
Theorem emitted_tests_and_guidance (text : string) :
  Forall (fun o =>
            exists (ts : list string) (gd : string),
              field "tests" o = Some (JArray (map JString ts))
              /\ is_string_array (JArray (map JString ts)) = true
              /\ field "guidance" o = Some (JString gd))
    (emitted_requirements (output_json (run occurrences grammar_of text))).
Proof.
  rewrite emitted_requirements_output. unfold run. cbn [requirements].
  apply Forall_forall. intros o Hin. apply in_map_iff in Hin.
  destruct Hin as (d & <- & Hd).
  eapply Forall_forall in Hd; [| apply extract_complete].
  destruct Hd as (ts & gd & Hts & Hgd).
  exists ts, gd. cbn [requirement_json field].
  split; [exact Hts | split; [apply strings_are_strings | exact Hgd]].
Qed.

End OrchestratorProperties.

(** * More properties of the handlers *)

(** ** The convert-pdf route, whatever the request *)

Section ConvertPdfMore.
Import Eff ConvertPdf.

Lemma try_catch_Done {W A} (m : M W A) (h : exn -> M W A) (w w' : W) (a : A) :
  m w = (Done a, w') -> try_catch m h w = (Done a, w').
Proof. intros H. unfold try_catch. rewrite H. reflexivity. Qed.

Lemma convert_cases (w : World) (f : File) :
  (saves w f = true
   /\ exists w', convert f w = (Done (converted w f), w')
                 /\ files w' = (filepath_of w f, bytes f) :: files w
                 /\ timers w' = (timers w ++ [(60000%Z, Unlink (filepath_of w f))])%list
                 /\ fs_denied w' = fs_denied w
                 /\ console w' = console w)
  \/ (saves w f = false
      /\ exists e w', convert f w = (Raise e, w') /\ files w' = files w
                      /\ timers w' = timers w).
Proof.
  unfold saves, filepath_of, converted, convert, existsSync, mkdir,
    Date_now, writeFile, setTimeout, json_response.
  eff_run.
  destruct (existsb (String.eqb (uploadsDir_of w)) (dirs w)) eqn:Hdir;
    cbn [negb orb andb].
  - destruct (fs_denied w (join [uploadsDir_of w; filename_of (clock w) f])) eqn:Hfile;
      cbn [negb]; [right | left]; split; trivial.
    + eexists; eexists; repeat split.
    + eexists; repeat split.
  - destruct (fs_denied w (uploadsDir_of w)) eqn:Hmk; cbn [negb andb].
    + right. split; trivial. eexists; eexists; repeat split.
    + cbn [cwd dirs files fs_denied clock timers console].
      destruct (fs_denied w (join [uploadsDir_of w; filename_of (clock w) f])) eqn:Hfile;
        cbn [negb]; [right | left]; split; trivial.
      * eexists; eexists; repeat split.
      * eexists; repeat split.
Qed.

(** Whatever the request and the state of the server, [POST] answers, with
    status 200, 400 or 500; a file is written exactly when the status is
    200, and then it is the upload of a valid PDF POST, stored under the
    path built from the clock and the cleaned file name. *)
Theorem POST_answers (w : World) (request : NextRequest) :
  exists r,
    fst (POST request w) = Done r
    /\ (status r = 200 \/ status r = 400 \/ status r = 500)%Z
    /\ (status r <> 200%Z -> files (snd (POST request w)) = files w)
    /\ (status r = 200%Z ->
        exists f, valid_pdf_post request f
                  /\ files (snd (POST request w))
                     = (filepath_of w f, bytes f) :: files w).
Proof.
  destruct (form request) as [fd |] eqn:Hform.
  - destruct (formData_get fd "pdf") as [[s | f] |] eqn:Hget.
    + unfold POST, request_formData. eff_run. rewrite Hform. cbv beta iota.
      rewrite Hget. cbn [not_file type_differs].
      destruct (s =? "")%string; cbn [fst snd status];
        eexists; (split; [reflexivity |]); cbn [status];
        (split; [right; left; reflexivity |]);
        (split; [reflexivity | discriminate]).
    + destruct (String.eqb_spec (type f) "application/pdf") as [Htype | Htype].
      * rewrite (POST_checked w request fd f Hform Hget Htype).
        destruct (convert_cases w f)
          as [(Hs & w' & Hc & Hfiles & _) | (Hs & e & w' & Hc & Hfiles & _)].
        -- rewrite (try_catch_Done _ _ _ _ _ Hc). cbn [fst snd].
           exists (converted w f). split; [reflexivity |]. cbn [converted status].
           split; [left; reflexivity |]. split; [congruence |]. intros _.
           exists f. split; [exists fd; repeat split; assumption | exact Hfiles].
        -- unfold try_catch. rewrite Hc. unfold console_error. eff_run.
           cbn [fst snd files]. exists conversion_failed.
           split; [reflexivity |]. cbn [conversion_failed status].
           split; [right; right; reflexivity |].
           split; [intros _; exact Hfiles | discriminate].
      * unfold POST, request_formData. eff_run. rewrite Hform. cbv beta iota.
        rewrite Hget. cbn [not_file type_differs].
        apply String.eqb_neq in Htype. rewrite Htype. cbn [negb fst snd].
        eexists. split; [reflexivity |]. cbn [status].
        split; [right; left; reflexivity |].
        split; [reflexivity | discriminate].
    + unfold POST, request_formData. eff_run. rewrite Hform. cbv beta iota.
      rewrite Hget. cbn [not_file fst snd].
      eexists. split; [reflexivity |]. cbn [status].
      split; [right; left; reflexivity |].
      split; [reflexivity | discriminate].
  - unfold POST, request_formData, console_error. eff_run. rewrite Hform.
    cbv beta iota. cbn [fst snd files].
    eexists. split; [reflexivity |]. cbn [status].
    split; [right; right; reflexivity |].
    split; [reflexivity | discriminate].
Qed.

Lemma all_chars_app (p : ascii -> bool) (a b : string) :
  Chars.all_chars p (a ++ b) = Chars.all_chars p a && Chars.all_chars p b.
Proof.
  induction a as [| c a IH]; [reflexivity |].
  cbn [append Chars.all_chars]. rewrite IH, andb_assoc. reflexivity.
Qed.

Lemma all_chars_impl (p q : ascii -> bool) (s : string) :
  (forall c, p c = true -> q c = true) ->
  Chars.all_chars p s = true -> Chars.all_chars q s = true.
Proof.
  intros Hpq. induction s as [| c s IH]; [reflexivity |].
  cbn [Chars.all_chars]. intros H. apply andb_true_iff in H.
  destruct H as [Hc Hs]. rewrite (Hpq c Hc), (IH Hs). reflexivity.
Qed.

Lemma uint_digits (d : Decimal.uint) :
  Chars.all_chars Js.is_digit (NilEmpty.string_of_uint d) = true.
Proof. induction d; cbn [NilEmpty.string_of_uint Chars.all_chars]; trivial. Qed.

Lemma of_Z_chars (z : Z) : Chars.all_chars Chars.filename_char (Js.of_Z z) = true.
Proof.
  assert (Hd : forall c, Js.is_digit c = true -> Chars.filename_char c = true).
  { intros c Hc. unfold Chars.filename_char. rewrite Hc.
    rewrite !orb_true_r. reflexivity. }
  assert (Hu : forall d, Chars.all_chars Chars.filename_char
                           (NilZero.string_of_uint d) = true).
  { intros d. destruct d; try reflexivity;
      apply (all_chars_impl _ _ _ Hd); apply uint_digits. }
  unfold Js.of_Z. destruct (Z.to_int z) as [d | d]; cbn [NilZero.string_of_int].
  - apply Hu.
  - cbn [Chars.all_chars]. rewrite Hu. reflexivity.
Qed.

Lemma of_Z_nonempty (z : Z) : Js.of_Z z <> "".
Proof.
  unfold Js.of_Z. destruct (Z.to_int z) as [d | d]; cbn [NilZero.string_of_int];
    [destruct d |]; discriminate.
Qed.

Lemma cleaned_chars (s : string) :
  Chars.all_chars Chars.filename_char (Js.replace_class unsafe_char "_" s) = true
  /\ String.length (Js.replace_class unsafe_char "_" s) = String.length s.
Proof.
  induction s as [| c s [IHc IHl]]; [split; reflexivity |].
  cbn [Js.replace_class]. destruct (unsafe_char c) eqn:Hc.
  - cbn [append Chars.all_chars String.length]. rewrite IHc, IHl.
    split; reflexivity.
  - cbn [Chars.all_chars String.length]. rewrite IHc, IHl.
    unfold unsafe_char in Hc. apply negb_false_iff in Hc.
    unfold Chars.filename_char. rewrite Hc. split; reflexivity.
Qed.

Lemma length_append (a b : string) :
  String.length (a ++ b) = String.length a + String.length b.
Proof. induction a as [| c a IH]; [reflexivity | cbn; rewrite IH; reflexivity]. Qed.

(** The name [POST] stores an upload under is made of letters, digits,
    dots, hyphens and underscores only, whatever the name the browser
    sent: it holds no path separator, and the cleaning changes no length. *)
Theorem filename_is_clean (timestamp : Z) (f : File) :
  Chars.all_chars Chars.filename_char (filename_of timestamp f) = true
  /\ Chars.all_chars Chars.not_slash (filename_of timestamp f) = true
  /\ String.length (filename_of timestamp f)
     = String.length (Js.of_Z timestamp) + 1 + String.length (name f).
Proof.
  assert (Hall : Chars.all_chars Chars.filename_char (filename_of timestamp f) = true).
  { unfold filename_of. rewrite !all_chars_app, of_Z_chars.
    rewrite (proj1 (cleaned_chars (name f))). reflexivity. }
  split; [exact Hall |]. split.
  - apply (all_chars_impl Chars.filename_char); [| exact Hall].
    intros c Hc. unfold Chars.not_slash.
    destruct (Ascii.eqb_spec c "/") as [-> | _]; [discriminate Hc | reflexivity].
  - unfold filename_of. rewrite !length_append.
    rewrite (proj2 (cleaned_chars (name f))). cbn [String.length]. 
    rewrite Nat.add_assoc. reflexivity.
Qed.

Lemma filter_none {A} (p : A -> bool) (l : list A) :
  existsb p l = false -> filter (fun x => negb (p x)) l = l.
Proof.
  induction l as [| x l IH]; [reflexivity |].
  cbn [existsb filter]. intros H. apply orb_false_iff in H.
  destruct H as [Hx Hl]. rewrite Hx, (IH Hl). reflexivity.
Qed.

(** The upload of a successful POST is gone once its timer has fired: the
    timer is the one left for the path the upload was written to, its
    callback fulfils, and the files are those of before the POST (an older
    file of the same path, which the upload replaced, apart). *)
Theorem upload_is_removed (w : World) (request : NextRequest) (f : File) :
  valid_pdf_post request f ->
  saves w f = true ->
  let w1 := snd (POST request w) in
  let after := Cleanup.fire (Unlink (filepath_of w f)) w1 in
  timers w1 = (timers w ++ [(60000%Z, Unlink (filepath_of w f))])%list
  /\ fst after = Done tt
  /\ files (snd after)
     = filter (fun e => negb (Cleanup.at_path (filepath_of w f) e)) (files w)
  /\ (existsb (Cleanup.at_path (filepath_of w f)) (files w) = false ->
      files (snd after) = files w)
  /\ console (snd after) = console w.
Proof.
  intros (fd & Hform & Hget & Htype) Hs w1 after. subst w1 after.
  rewrite (POST_checked w request fd f Hform Hget Htype).
  destruct (convert_cases w f)
    as [(_ & w' & Hc & Hfiles & Htimers & Hden & Hcon)
       | (Hs' & _)]; [| congruence].
  rewrite (try_catch_Done _ _ _ _ _ Hc). cbn [snd].
  split; [exact Htimers |].
  assert (Hok : fs_denied w (filepath_of w f) = false).
  { unfold saves in Hs. apply andb_true_iff in Hs. destruct Hs as [_ Hs].
    apply negb_true_iff in Hs. exact Hs. }
  assert (Hat : forall b, Cleanup.at_path (filepath_of w f) (filepath_of w f, b)
                         = true)
    by (intros b; apply String.eqb_refl).
  unfold Cleanup.fire, Cleanup.unlink, try_catch.
  rewrite Hden, Hok, Hfiles. cbn [existsb filter]. rewrite Hat.
  cbn [orb negb fst snd files console]. repeat split; trivial.
  intros Hnone. apply filter_none. exact Hnone.
Qed.

Lemma upload_is_removed_witness :
  files (snd (POST (post_of sample_pdf) fresh_world))
  = [("/app/public/uploads/1700000000000-rapport_final.pdf", "%PDF-1.7")]
  /\ files (snd (Cleanup.fire (Unlink (filepath_of fresh_world sample_pdf))
                   (snd (POST (post_of sample_pdf) fresh_world)))) = [].
Proof.
  split; [vm_compute; reflexivity |].
  assert (Hv : valid_pdf_post (post_of sample_pdf) sample_pdf).
  { exists [("pdf", FileEntry sample_pdf)]. repeat split. }
  exact (proj1 (proj2 (proj2 (upload_is_removed fresh_world (post_of sample_pdf)
                                sample_pdf Hv eq_refl)))).
Defined.


End ConvertPdfMore.

(** ** The download-images route *)

Section DownloadImagesProperties.
Import DownloadImages.

Lemma disposition_units (id : Text) :
  header_value (disposition id) = header_value id.
Proof.
  unfold header_value, disposition. rewrite !forallb_app.
  assert (Ha : forallb header_unit
                 (text ("attachment; filename="
                        ++ String Page.dquote "converted-images-")) = true)
    by reflexivity.
  assert (Hb : forallb header_unit (text (".zip" ++ String Page.dquote ""))
               = true) by reflexivity.
  rewrite Ha, Hb. cbn [andb]. apply andb_true_r.
Qed.

Lemma GET_with_id (request : NextRequest) (u : N) (us : Text) :
  searchParams_get (searchParams request) (text "id") = Some (u :: us) ->
  GET request
  = if header_value (u :: us) then Responds (zip_response (u :: us))
    else ThrowsTypeError.
Proof.
  intros Hid. unfold GET, new_NextResponse. rewrite Hid. cbn [no_id].
  cbn [forallb snd]. rewrite disposition_units.
  replace (header_value (text "application/zip")) with true by reflexivity.
  cbn [andb]. rewrite andb_true_r. reflexivity.
Qed.

(** [GET] answers 400 with [ID manquant] exactly when the query has no
    [id] or an empty first [id]. With another id it answers 200 with the
    same demo content whatever the id, and names the id in the attachment,
    provided every unit of the id may stand in a header value; with an id
    that holds a line feed, a carriage return, a NUL or a unit above 255
    it answers nothing: building the response throws. *)
Theorem GET_cases (request : NextRequest) :
  (no_id (searchParams_get (searchParams request) (text "id")) = true ->
   GET request
   = Responds {| status := 400;
                 headers := [("content-type", text "application/json")];
                 body := ErrorJson "ID manquant" |})
  /\ (forall id,
         searchParams_get (searchParams request) (text "id") = Some id ->
         id <> [] ->
         header_value id = true ->
         GET request
         = Responds {| status := 200;
                       headers := [ ("Content-Type", text "application/zip");
                                    ("Content-Disposition", disposition id) ];
                       body := Raw "Demo ZIP file content" |})
  /\ (forall id,
         searchParams_get (searchParams request) (text "id") = Some id ->
         header_value id = false ->
         GET request = ThrowsTypeError).
Proof.
  split; [| split].
  - intros H. unfold GET. rewrite H. reflexivity.
  - intros [| u us] Hid Hne Hv; [contradiction |].
    rewrite (GET_with_id _ _ _ Hid), Hv. reflexivity.
  - intros [| u us] Hid Hv; [discriminate |].
    rewrite (GET_with_id _ _ _ Hid), Hv. reflexivity.
Qed.

Lemma GET_cases_witness :
  (exists r,
      GET {| searchParams := [(text "page", text "2"); (text "id", [])] |}
      = Responds r /\ status r = 400%Z)
  /\ GET {| searchParams := [(text "id", text "17"); (text "id", [])] |}
     = Responds (zip_response (text "17"))
  /\ GET {| searchParams := [(text "id", [97; 10; 98]%N)] |} = ThrowsTypeError
  /\ GET {| searchParams := [(text "id", [8364]%N)] |} = ThrowsTypeError.
Proof.
  split; [| split; [| split]].
  - eexists.
    split;
      [ exact (proj1 (GET_cases
                        {| searchParams :=
                             [(text "page", text "2"); (text "id", [])] |})
                 eq_refl)
      | reflexivity ].
  - exact (proj1 (proj2 (GET_cases
                           {| searchParams :=
                                [(text "id", text "17"); (text "id", [])] |}))
             (text "17") eq_refl ltac:(discriminate) eq_refl).
  - exact (proj2 (proj2 (GET_cases
                           {| searchParams := [(text "id", [97; 10; 98]%N)] |}))
             [97; 10; 98]%N eq_refl eq_refl).
  - exact (proj2 (proj2 (GET_cases {| searchParams := [(text "id", [8364]%N)] |}))
             [8364]%N eq_refl eq_refl).
Defined.

Lemma filename_char_header_unit (c : ascii) :
  Chars.filename_char c = true -> header_unit (N_of_ascii c) = true.
Proof.
  destruct c as [[] [] [] [] [] [] [] []]; vm_compute;
    intros H; try reflexivity; discriminate H.
Qed.

Lemma clean_text_header_value (s : string) :
  Chars.all_chars Chars.filename_char s = true -> header_value (text s) = true.
Proof.
  unfold header_value.
  induction s as [| c s IH]; [reflexivity |].
  cbn [Chars.all_chars text forallb]. intros H. apply andb_true_iff in H.
  destruct H as [Hc Hs]. rewrite (filename_char_header_unit c Hc), (IH Hs).
  reflexivity.
Qed.

(** The download link of a converted upload is one [GET] accepts: the id
    [POST] puts in [downloadUrl] is the decimal clock value, never empty
    and made of characters a header value may hold, and [GET] with that id
    answers 200. *)
Theorem download_link_is_served
  (w : ConvertPdf.World) (request : ConvertPdf.NextRequest) (f : ConvertPdf.File) :
  ConvertPdf.valid_pdf_post request f ->
  ConvertPdf.saves w f = true ->
  fst (ConvertPdf.POST request w)
  = Eff.Done {| ConvertPdf.status := 200;
                ConvertPdf.body :=
                  ConvertPdf.ConversionBody (ConvertPdf.name f)
                    ConvertPdf.mockImages
                    ("/api/download-images?id=" ++ Js.of_Z (ConvertPdf.clock w)) |}
  /\ exists r,
       GET {| searchParams := [(text "id", text (Js.of_Z (ConvertPdf.clock w)))] |}
       = Responds r
       /\ status r = 200%Z.
Proof.
  intros (fd & Hform & Hget & Htype) Hs. split.
  - rewrite (POST_checked w request fd f Hform Hget Htype).
    destruct (convert_cases w f) as [(_ & w' & Hc & _) | (Hs' & _)];
      [| congruence].
    rewrite (try_catch_Done _ _ _ _ _ Hc). reflexivity.
  - pose proof (of_Z_nonempty (ConvertPdf.clock w)) as Hne.
    pose proof (clean_text_header_value _ (of_Z_chars (ConvertPdf.clock w))) as Hv.
    destruct (Js.of_Z (ConvertPdf.clock w)) as [| c rest];
      [contradiction |].
    change (text (String c rest)) with (N_of_ascii c :: text rest) in *.
    exists (zip_response (N_of_ascii c :: text rest)).
    split; [| reflexivity].
    pose proof (GET_with_id
                  {| searchParams := [(text "id", N_of_ascii c :: text rest)] |}
                  (N_of_ascii c) (text rest) eq_refl) as HG.
    rewrite Hv in HG. exact HG.
Qed.

Lemma download_link_is_served_witness :
  exists r,
    GET {| searchParams :=
             [(text "id",
               text (Js.of_Z (ConvertPdf.clock ConvertPdf.fresh_world)))] |}
    = Responds r
    /\ status r = 200%Z.
Proof.
  assert (Hv : ConvertPdf.valid_pdf_post (ConvertPdf.post_of ConvertPdf.sample_pdf)
                 ConvertPdf.sample_pdf).
  { exists [("pdf", ConvertPdf.FileEntry ConvertPdf.sample_pdf)]. repeat split. }
  exact (proj2 (download_link_is_served ConvertPdf.fresh_world
                  (ConvertPdf.post_of ConvertPdf.sample_pdf)
                  ConvertPdf.sample_pdf Hv eq_refl)).
Defined.

End DownloadImagesProperties.

(** ** The upload form of the converter *)

Section ConverterFormProperties.
Import Eff ConverterForm.

Ltac converter_run :=
  unfold handleFiles, upload, fetch, response_json, setState, setResult,
    setError, setTimeout, console_error;
  eff_run;
  cbn [state error result timers requests console network].

(** Whatever the network does, [handleFiles] on a list with a first file
    fulfils and leaves the form in the success or in the error state,
    never in between. An error shows one of the form's three own messages,
    never a text of the server, keeps the stored result and leaves one
    timer of 3000 ms; a success stores the body of an ok answer and leaves
    no timer. A request is sent exactly when the file is a PDF of at most
    10 * 1024 * 1024 bytes, and it carries that file as [pdf]. *)
Theorem converter_outcome (w : World) (file : ConvertPdf.File)
  (rest : list ConvertPdf.File) :
  let w' := snd (handleFiles (Some (file :: rest)) w) in
  fst (handleFiles (Some (file :: rest)) w) = Done tt
  /\ (state w' = Success \/ state w' = Error)
  /\ (state w' = Error ->
      (error w' = Some msg_not_pdf \/ error w' = Some msg_too_large
       \/ error w' = Some msg_conversion)
      /\ timers w' = (timers w ++ [(3000%Z, ClearError)])%list
      /\ result w' = result w)
  /\ (state w' = Success ->
      timers w' = timers w
      /\ exists r b, network w [("pdf", ConvertPdf.FileEntry file)] = Done r
                     /\ ok r = true /\ json r = Done b
                     /\ result w' = Some b)
  /\ requests w'
     = (if accepts file
        then requests w ++ [[("pdf", ConvertPdf.FileEntry file)]]
        else requests w)%list.
Proof.
  intros w'. subst w'. unfold accepts. converter_run.
  destruct (ConvertPdf.type file =? "application/pdf")%string; cbn [negb andb].
  - destruct (max_size <? size file)%Z; cbn [negb].
    + cbn. repeat split; auto; discriminate.
    + destruct (network w [("pdf", ConvertPdf.FileEntry file)])
        as [r | e] eqn:Hnet.
      * destruct (ok r) eqn:Hok; cbn [negb].
        -- destruct (json r) as [b | e] eqn:Hjson.
           ++ cbn. repeat split; auto; try discriminate.
              exists r, b. repeat split; assumption.
           ++ cbn. repeat split; auto; discriminate.
        -- cbn. repeat split; auto; discriminate.
      * cbn. repeat split; auto; discriminate.
  - cbn. repeat split; auto; discriminate.
Qed.

Lemma endpoint_answer (sw : ConvertPdf.World) (file : ConvertPdf.File) :
  ConvertPdf.type file = "application/pdf" ->
  endpoint sw [("pdf", ConvertPdf.FileEntry file)]
  = Done (if ConvertPdf.saves sw file
          then {| ok := true;
                  json := Done (ConvertPdf.body (ConvertPdf.converted sw file)) |}
          else {| ok := false;
                  json := Done (ConvertPdf.body ConvertPdf.conversion_failed) |}).
Proof.
  intros Htype. unfold endpoint.
  match goal with
  | |- context [ConvertPdf.POST ?r sw] =>
      rewrite (POST_checked sw r _ file eq_refl eq_refl Htype)
  end.
  destruct (convert_cases sw file)
    as [(Hs & w' & Hc & _) | (Hs & e & w' & Hc & _)]; rewrite Hs.
  - rewrite (try_catch_Done _ _ _ _ _ Hc). reflexivity.
  - unfold try_catch. rewrite Hc. reflexivity.
Qed.

(** The form in front of the route: a file the form accepts is never
    refused by the checks of [POST]. When the server can save it the form
    ends in the success state with the three placeholder images and the
    download link; when it cannot, the form shows its conversion error and
    keeps the result it had. *)
Theorem converter_end_to_end (sw : ConvertPdf.World) (w : World)
  (file : ConvertPdf.File) (rest : list ConvertPdf.File) :
  network w = endpoint sw ->
  accepts file = true ->
  let w' := snd (handleFiles (Some (file :: rest)) w) in
  (exists r, fst (ConvertPdf.POST
                    {| ConvertPdf.form := Some [("pdf", ConvertPdf.FileEntry file)] |}
                    sw) = Done r
             /\ ConvertPdf.status r <> 400%Z)
  /\ (ConvertPdf.saves sw file = true ->
      state w' = Success
      /\ result w'
         = Some (ConvertPdf.ConversionBody (ConvertPdf.name file)
                   ConvertPdf.mockImages
                   ("/api/download-images?id=" ++ Js.of_Z (ConvertPdf.clock sw))))
  /\ (ConvertPdf.saves sw file = false ->
      state w' = Error
      /\ error w' = Some msg_conversion
      /\ result w' = result w).
Proof.
  intros Hnet Hacc w'. subst w'.
  unfold accepts in Hacc. apply andb_true_iff in Hacc.
  destruct Hacc as [Htype Hsize]. apply negb_true_iff in Hsize.
  pose proof (endpoint_answer sw file (proj1 (String.eqb_eq _ _) Htype)) as Hans.
  split.
  - match goal with
    | |- context [ConvertPdf.POST ?r sw] =>
        rewrite (POST_checked sw r _ file eq_refl eq_refl
                   (proj1 (String.eqb_eq _ _) Htype))
    end.
    destruct (convert_cases sw file)
      as [(Hs & w' & Hc & _) | (Hs & e & w' & Hc & _)].
    + rewrite (try_catch_Done _ _ _ _ _ Hc). eexists; split; [reflexivity |].
      discriminate.
    + unfold try_catch. rewrite Hc. eexists; split; [reflexivity |].
      discriminate.
  - converter_run. rewrite Htype, Hsize. cbn [negb]. rewrite Hnet, Hans.
    split; intros Hs; rewrite Hs; cbn; repeat split.
Qed.

Lemma converter_end_to_end_witness :
  state (snd (handleFiles (Some [ConvertPdf.sample_pdf])
                (mounted (endpoint ConvertPdf.fresh_world)))) = Success
  /\ state (snd (handleFiles (Some [ConvertPdf.sample_pdf])
                   (mounted (endpoint ConvertPdf.readonly_world)))) = Error.
Proof.
  split.
  - exact (proj1 (proj1 (proj2 (converter_end_to_end ConvertPdf.fresh_world
                                  (mounted (endpoint ConvertPdf.fresh_world))
                                  ConvertPdf.sample_pdf [] eq_refl eq_refl))
                    eq_refl)).
  - exact (proj1 (proj2 (proj2 (converter_end_to_end ConvertPdf.readonly_world
                                  (mounted (endpoint ConvertPdf.readonly_world))
                                  ConvertPdf.sample_pdf [] eq_refl eq_refl))
                    eq_refl)).
Defined.

End ConverterFormProperties.

(** ** The upload form of the extractor, whatever the network does *)

Section UploadFormMore.
Import Eff Api UploadForm UploadFormView.

Ltac form_run :=
  unfold handleFiles, upload, fetch, response_json, setState, setResult,
    setError, setTimeout, console_error, extraction_request;
  eff_run;
  cbn [state error result timers requests console node_env network].

(** Whatever the network does, [handleFiles] on a list with a first file
    leaves the form in the success or in the error state, never in
    between. An error keeps the stored result and leaves exactly one
    timer, of 3000 ms for a refused file and of 5000 ms for a failed
    extraction; a success leaves no timer and stores the name of the file
    with the requirements and the summary of an ok answer that has at
    least one requirement. One request is sent, a POST of the first file,
    exactly when that file is a PDF of at most 50 * 1024 * 1024 bytes; the
    other files of the list are ignored. *)
Theorem handleFiles_outcome (w : World) (file : File) (rest : list File) :
  let w' := snd (handleFiles (Some (file :: rest)) w) in
  (state w' = Success \/ state w' = Error)
  /\ (state w' = Error ->
      result w' = result w
      /\ timers w'
         = (timers w ++ [((if accepts file then 5000 else 3000)%Z, ClearError)])%list)
  /\ (state w' = Success ->
      timers w' = timers w
      /\ UploadForm.error w' = UploadForm.error w
      /\ exists r d q qs,
           network w (extraction_request w file) = Done r
           /\ ok r = true /\ json r = Done d
           /\ requirements d = Some (q :: qs)
           /\ result w' = Some {| filename := name file;
                                  result_requirements := q :: qs;
                                  result_summary := summary d |})
  /\ requests w'
     = (if accepts file then requests w ++ [extraction_request w file]
        else requests w)%list
  /\ w' = snd (handleFiles (Some [file]) w).
Proof.
  intros w'. subst w'. unfold accepts. form_run.
  destruct (type file =? "application/pdf")%string; cbn [negb andb].
  - destruct (max_size <? size file)%Z; cbn [negb].
    + cbn. repeat split; auto; discriminate.
    + destruct (network w {| url := apiUrl (node_env w); method := "POST";
                             body := file |}) as [r | e] eqn:Hnet.
      * destruct (ok r) eqn:Hok; cbn [negb].
        -- destruct (json r) as [d | e] eqn:Hjson.
           ++ destruct (requirements d) as [[| q qs] |] eqn:Hreq.
              ** cbn. repeat split; auto; discriminate.
              ** cbn. repeat split; auto; try discriminate.
                 exists r, d, q, qs. repeat split; assumption.
              ** cbn. repeat split; auto; discriminate.
           ++ cbn. repeat split; auto; discriminate.
        -- destruct (json r) as [d | e]; cbn; repeat split; auto; discriminate.
      * cbn. repeat split; auto; discriminate.
  - cbn. repeat split; auto; discriminate.
Qed.

(** What a failed extraction shows: the [error] text of a non-ok answer
    when it has one that is not empty, and [Erreur lors de l'extraction]
    when it has none; the message of the error when [fetch] rejects or the
    body cannot be parsed. *)
Theorem handleFiles_failure_message (w : World) (file : File) (rest : list File) :
  accepts file = true ->
  let w' := snd (handleFiles (Some (file :: rest)) w) in
  (forall e, network w (extraction_request w file) = Raise e ->
             state w' = Error /\ UploadForm.error w' = Some (message_of e))
  /\ (forall r e, network w (extraction_request w file) = Done r ->
                  json r = Raise e ->
                  state w' = Error /\ UploadForm.error w' = Some (message_of e))
  /\ (forall r d, network w (extraction_request w file) = Done r ->
                  ok r = false -> json r = Done d ->
                  state w' = Error
                  /\ UploadForm.error w'
                     = Some (or_else (Api.error d) "Erreur lors de l'extraction")).
Proof.
  intros Hacc w'. subst w'. unfold accepts in Hacc.
  apply andb_true_iff in Hacc. destruct Hacc as [Htype Hsize].
  apply negb_true_iff in Hsize.
  form_run. rewrite Htype, Hsize. cbn [negb].
  unfold extraction_request. split; [| split].
  - intros e Hnet. rewrite Hnet. cbn. split; reflexivity.
  - intros r e Hnet Hjson. rewrite Hnet.
    destruct (ok r); cbn [negb]; rewrite Hjson; cbn; split; reflexivity.
  - intros r d Hnet Hok Hjson. rewrite Hnet, Hok. cbn [negb]. rewrite Hjson.
    cbn. split; reflexivity.
Qed.

Lemma handleFiles_failure_message_witness :
  UploadForm.error (snd (handleFiles (Some [sample_pdf]) (mounted failing_answer)))
  = Some "PDF illisible".
Proof.
  exact (proj2 (proj2 (proj2 (handleFiles_failure_message (mounted failing_answer)
                                sample_pdf [] eq_refl))
                  {| ok := false; statusText := "Unprocessable Entity";
                     json := Done {| Api.error := Some "PDF illisible";
                                     requirements := None; summary := None |} |}
                  {| Api.error := Some "PDF illisible";
                     requirements := None; summary := None |}
                  eq_refl eq_refl eq_refl)).
Defined.

(** A timer left by a refused file is not cancelled by a later success:
    after the refusal and then a successful extraction the component
    renders the result view, with the counts of the summary of the answer
    (without a summary the render throws), and the timer is still pending;
    when it fires the form is back to idle and the component renders the
    empty drop zone, although the result is still stored. *)
Theorem pending_timer_hides_result
  (w : World) (bad good : File) (r : Response) (d : Payload)
  (q : Requirement) (qs : list Requirement) :
  accepts bad = false ->
  accepts good = true ->
  network w (extraction_request w good) = Done r ->
  ok r = true ->
  json r = Done d ->
  requirements d = Some (q :: qs) ->
  let w1 := snd (handleFiles (Some [bad]) w) in
  let w2 := snd (handleFiles (Some [good]) w1) in
  let w3 := snd (fire ClearError w2) in
  render w2 = match summary d with
              | Some sm => Shows (ResultView (total sm) (total_tests sm))
              | None => ThrowsTypeError
              end
  /\ timers w2 = (timers w ++ [(3000%Z, ClearError)])%list
  /\ state w3 = Idle
  /\ result w3 = result w2
  /\ result w3 <> None
  /\ render w3 = Shows (DropZone "Glissez votre PDF PCI DSS ici" None).
Proof.
  intros Hbad Hgood Hnet Hok Hjson Hreq w1 w2 w3.
  assert (H1 : state w1 = Error /\ timers w1 = (timers w ++ [(3000%Z, ClearError)])%list
               /\ network w1 = network w /\ node_env w1 = node_env w).
  { subst w1. unfold accepts in Hbad. form_run.
    destruct (type bad =? "application/pdf")%string; cbn [negb andb] in *.
    - apply negb_false_iff in Hbad. rewrite Hbad. cbn. repeat split.
    - cbn. repeat split. }
  destruct H1 as (Hst1 & Ht1 & Hn1 & He1).
  assert (H2 : state w2 = Success /\ timers w2 = timers w1
               /\ result w2 = Some {| filename := name good;
                                      result_requirements := q :: qs;
                                      result_summary := summary d |}).
  { subst w2. unfold accepts in Hgood. apply andb_true_iff in Hgood.
    destruct Hgood as [Htype Hsize]. apply negb_true_iff in Hsize.
    form_run. rewrite Htype, Hsize. cbn [negb].
    rewrite Hn1, He1. unfold extraction_request in Hnet. rewrite Hnet, Hok.
    cbn [negb]. rewrite Hjson, Hreq. cbn. repeat split. }
  destruct H2 as (Hst2 & Ht2 & Hr2).
  assert (H3 : state w3 = Idle /\ result w3 = result w2 /\ error w3 = None).
  { subst w3. unfold fire, setError, setState. eff_run. cbn.
    repeat split; reflexivity. }
  destruct H3 as (Hst3 & Hr3 & He3).
  unfold render. rewrite Hst2, Hst3, He3, Hr3, Hr2, Ht2, Ht1.
  cbn [result_summary title_of shown_error].
  repeat split. discriminate.
Qed.

Lemma pending_timer_hides_result_witness :
  render
    (snd (handleFiles (Some [sample_pdf])
            (snd (handleFiles (Some [sample_doc]) (mounted summarised_answer)))))
  = Shows (ResultView 1 0)
  /\ render
       (snd (fire ClearError
               (snd (handleFiles (Some [sample_pdf])
                       (snd (handleFiles (Some [sample_doc])
                               (mounted summarised_answer)))))))
     = Shows (DropZone "Glissez votre PDF PCI DSS ici" None).
Proof.
  pose proof (pending_timer_hides_result (mounted summarised_answer)
                sample_doc sample_pdf
                {| ok := true; statusText := "OK";
                   json := Done {| Api.error := None;
                                   requirements := Some [one_requirement];
                                   summary := Some one_summary |} |}
                {| Api.error := None; requirements := Some [one_requirement];
                   summary := Some one_summary |}
                one_requirement [] eq_refl eq_refl eq_refl eq_refl eq_refl eq_refl)
    as (Hshown & _ & _ & _ & _ & Hgone).
  split; [exact Hshown | exact Hgone].
Defined.

(** An answer with requirements and no summary is taken as a success, and
    the render that follows throws. *)
Example render_without_summary :
  state (snd (handleFiles (Some [sample_pdf]) (mounted full_answer))) = Success
  /\ render (snd (handleFiles (Some [sample_pdf]) (mounted full_answer)))
     = ThrowsTypeError.
Proof. split; vm_compute; reflexivity. Qed.

End UploadFormMore.

(** ** The page with the downloads, whatever the user and the network do *)

Section PageMore.
Import Eff Api Page PageEvents.

Lemma length_substring0 (n : nat) (s : string) :
  String.length (substring 0 n s) = Nat.min n (String.length s).
Proof.
  revert s. induction n as [| n IH]; intros s.
  - destruct s; reflexivity.
  - destruct s as [| c s]; [reflexivity |].
    cbn [substring String.length Nat.min]. rewrite IH. reflexivity.
Qed.

Lemma replaced_chars (s : string) :
  Chars.all_chars Chars.not_colon_or_dot (Js.replace_class colon_or_dot "-" s)
  = true
  /\ String.length (Js.replace_class colon_or_dot "-" s) = String.length s.
Proof.
  induction s as [| c s [IHc IHl]]; [split; reflexivity |].
  cbn [Js.replace_class]. destruct (colon_or_dot c) eqn:Hc.
  - cbn [append Chars.all_chars String.length]. rewrite IHc, IHl.
    split; reflexivity.
  - cbn [Chars.all_chars String.length]. unfold Chars.not_colon_or_dot at 1.
    rewrite Hc, IHc, IHl. split; reflexivity.
Qed.

(** The timestamp of a download name holds no colon and no dot, whatever
    the string it is cut from, and is the first 19 characters of it with
    those replaced: 19 characters for every ISO date, fewer only when the
    string is shorter. *)
Theorem timestamp_is_plain (iso : string) :
  Chars.all_chars Chars.not_colon_or_dot (timestamp_of iso) = true
  /\ String.length (timestamp_of iso) = Nat.min 19 (String.length iso)
  /\ (19 <= String.length iso -> String.length (timestamp_of iso) = 19).
Proof.
  unfold timestamp_of, Js.slice0.
  destruct (replaced_chars (substring 0 19 iso)) as [Hc Hl].
  split; [exact Hc |]. rewrite Hl, length_substring0.
  split; [reflexivity |]. intros H. apply Nat.min_l. exact H.
Qed.

Lemma timestamp_is_plain_witness :
  String.length (timestamp_of "2024-01-15T10:30:45.123Z") = 19.
Proof.
  apply (proj2 (proj2 (timestamp_is_plain "2024-01-15T10:30:45.123Z"))).
  vm_compute. repeat constructor.
Defined.

(** Two requirement lists with the same CSV have the same rows: the same
    number of requirements and, one by one, the same identifier, text,
    joined tests and guidance. Quotes, commas and line breaks in the
    fields cannot make two different tables look alike. *)
Theorem csvContent_lossless (a b : list Requirement) :
  csvContent a = csvContent b ->
  map CsvSpec.cells a = map CsvSpec.cells b /\ List.length a = List.length b.
Proof.
  intros H.
  assert (Hr : CsvReader.records (csvContent a) = CsvReader.records (csvContent b))
    by (rewrite H; reflexivity).
  rewrite !csvContent_reads_back in Hr. injection Hr as Hcells.
  split; [exact Hcells |].
  rewrite <- (length_map CsvSpec.cells a), <- (length_map CsvSpec.cells b), Hcells.
  reflexivity.
Qed.

Lemma csvContent_lossless_witness :
  map CsvSpec.cells
    [ {| req_num := "1"; text := "t"; tests := ["a; b"]; guidance := "" |} ]
  = map CsvSpec.cells
      [ {| req_num := "1"; text := "t"; tests := ["a"; "b"]; guidance := "" |} ].
Proof.
  exact (proj1 (csvContent_lossless
                  [ {| req_num := "1"; text := "t"; tests := ["a; b"];
                       guidance := "" |} ]
                  [ {| req_num := "1"; text := "t"; tests := ["a"; "b"];
                       guidance := "" |} ]
                  eq_refl)).
Defined.

Ltac events_run :=
  cbv beta iota delta
    [handle handleFileUpload handleDragOver handleDragLeave handleDrop
     select_pdf first_file hd_error setFile setIsDragging
     processFile process fetch response_json console_write setIsProcessing
     setExtractedData setLanguageInfo downloadJSON downloadCSV click
     Eff.bind Eff.try_catch Eff.return_if Eff.gets Eff.modify Eff.ret Eff.throw
     file isProcessing isDragging extractedData languageInfo downloads
     requests console node_env network now_iso fst snd
     url method body].

Ltac healthy_done :=
  repeat split; auto; try discriminate; try congruence;
  try (intros _; discriminate);
  try (intros ? Heq; injection Heq as <-; assumption);
  try (apply Forall_app; split; [assumption | repeat constructor; auto]).

Lemma handle_healthy (env : string) (net : Network) (e : Event) (w : World) :
  Healthy env net w -> Healthy env net (snd (handle e w)).
Proof.
  destruct w as [wfile wproc wdrag wdata wlang wdl wreq wcon wenv wnet wnow].
  unfold Healthy.
  cbn [file isProcessing extractedData languageInfo downloads requests
       node_env network].
  intros (Henv & Hnet & Hfile & Hreq & Hdata & Hlang & Hdl & Hproc).
  subst wenv wnet wproc.
  destruct e as [files | | | files | | |].
  - (* handleFileUpload *)
    events_run. destruct files as [[| f fs] |].
    + events_run. healthy_done.
    + destruct (String.eqb_spec (type f) "application/pdf") as [Hf | Hf];
        events_run; healthy_done.
    + events_run. healthy_done.
  - events_run. healthy_done.
  - events_run. healthy_done.
  - (* handleDrop *)
    events_run. destruct files as [| f fs].
    + events_run. healthy_done.
    + destruct (String.eqb_spec (type f) "application/pdf") as [Hf | Hf];
        events_run; healthy_done.
  - (* processFile *)
    events_run. destruct wfile as [f |]; events_run; [| healthy_done].
    pose proof (Hfile f eq_refl) as Hpdf.
    destruct (net {| url := apiUrl env; method := "POST"; body := f |})
      as [r | ex]; events_run; [| healthy_done].
    destruct (ok r); cbn [negb]; events_run.
    + destruct (json r) as [d | ex]; events_run; [| healthy_done].
      destruct (requirements d) as [[| q qs] |];
        [events_run; healthy_done | | events_run; healthy_done].
      destruct (summary d) as [sm |]; [| events_run; healthy_done].
      destruct (language_detection sm) as [l |]; events_run; healthy_done.
    + destruct (json r) as [d | ex]; events_run; healthy_done.
  - (* downloadJSON *)
    events_run. destruct wdata as [items |]; events_run; healthy_done.
  - (* downloadCSV *)
    events_run. destruct wdata as [items |]; events_run; healthy_done.
Qed.

Lemma after_healthy (env : string) (net : Network) (events : list Event) :
  forall w, Healthy env net w -> Healthy env net (after events w).
Proof.
  induction events as [| e events IH]; intros w Hw; [exact Hw |].
  unfold after. cbn [fold_left]. apply IH. apply handle_healthy. exact Hw.
Qed.

(** Whatever the user does with the page and whatever the backend
    answers, from the opening of the page on: the selected file is a PDF,
    every request sent is a POST of a PDF to the extraction URL, extracted
    data is never an empty list, a language report or a download exists
    only once data was extracted, and no handler ends with the processing
    flag set. *)
Theorem page_stays_healthy
  (env : string) (net : Network) (iso : string) (events : list Event) :
  let w := after events (opened env net iso) in
  (forall f, file w = Some f -> type f = "application/pdf")
  /\ Forall (fun r => type (body r) = "application/pdf"
                      /\ method r = "POST" /\ url r = apiUrl env)
       (requests w)
  /\ extractedData w <> Some []
  /\ (languageInfo w <> None -> extractedData w <> None)
  /\ (downloads w <> [] -> extractedData w <> None)
  /\ isProcessing w = false.
Proof.
  intros w.
  assert (H : Healthy env net w).
  { apply after_healthy. unfold Healthy, opened.
    cbn [file isProcessing extractedData languageInfo downloads requests
         node_env network].
    repeat split; auto; try discriminate; intros H; congruence. }
  destruct H as (_ & _ & H). exact H.
Qed.

(** Whatever the backend answers, [processFile] fulfils; it sends one
    POST of the selected file, or none when no file is selected, starts no
    download and ends with the processing flag down. Extracted data and
    the language report change only on an ok answer with at least one
    requirement, and then the data is exactly that list; every other
    answer, and every failure, leaves them as they were: the page shows
    no error. *)
Theorem processFile_outcome (w : World) :
  let w' := snd (processFile w) in
  fst (processFile w) = Done tt
  /\ file w' = file w
  /\ downloads w' = downloads w
  /\ requests w'
     = match file w with
       | Some f => (requests w ++ [ {| url := apiUrl (node_env w);
                                       method := "POST"; body := f |} ])%list
       | None => requests w
       end
  /\ (file w <> None -> isProcessing w' = false)
  /\ ((extractedData w' = extractedData w /\ languageInfo w' = languageInfo w)
      \/ exists f r d q qs,
           file w = Some f
           /\ network w {| url := apiUrl (node_env w); method := "POST";
                           body := f |} = Done r
           /\ ok r = true /\ json r = Done d
           /\ requirements d = Some (q :: qs)
           /\ extractedData w' = Some (q :: qs)).
Proof.
  destruct w as [wfile wproc wdrag wdata wlang wdl wreq wcon wenv wnet wnow].
  intros w'. subst w'. events_run.
  destruct wfile as [f |]; events_run;
    [| repeat split; auto; congruence].
  destruct (wnet {| url := apiUrl wenv; method := "POST"; body := f |})
    as [r | ex] eqn:Hnet; events_run; [| repeat split; auto].
  destruct (ok r) eqn:Hok; cbn [negb]; events_run.
  - destruct (json r) as [d | ex] eqn:Hjson; events_run; [| repeat split; auto].
    destruct (requirements d) as [[| q qs] |] eqn:Hreq;
      [events_run; repeat split; auto | | events_run; repeat split; auto].
    assert (Hex : exists f0 r0 d0 q0 qs0,
               Some f = Some f0
               /\ wnet {| url := apiUrl wenv; method := "POST"; body := f0 |}
                  = Done r0
               /\ ok r0 = true /\ json r0 = Done d0
               /\ requirements d0 = Some (q0 :: qs0)
               /\ Some (q :: qs) = Some (q0 :: qs0))
      by (exists f, r, d, q, qs; repeat split; assumption).
    destruct (summary d) as [sm |];
      [destruct (language_detection sm) as [l |] |];
      events_run; repeat split; auto.
  - destruct (json r) as [d | ex]; events_run; repeat split; auto.
Qed.

End PageMore.

(** ** The earlier page *)

Section AlertPageProperties.
Import Eff Api AlertPage.

Ltac alert_run :=
  cbv beta iota delta
    [processFile process fetch response_json console_write setIsProcessing
     alert click
     Eff.bind Eff.try_catch Eff.return_if Eff.gets Eff.modify Eff.ret Eff.throw
     file isProcessing downloads alerts requests console node_env network
     now_iso fst snd].

(** On the earlier page every run of [processFile] with a file selected
    fulfils, ends with the processing flag down and tells the user once,
    and what it tells is decided by the answer. After an ok answer with
    requirements it has started one download, named [pci_requirements_] +
    timestamp + [.json] with no language code, and the alert gives the
    count and that name. After an ok answer with no requirements or an
    empty list the alert says none was found and nothing is downloaded.
    After a rejected request, a body that does not parse or an answer that
    is not ok, nothing is downloaded and the alert carries that error: the
    rejection, the parse error, or [Server error: ] followed by the error
    of the body or else the status text. *)
Theorem alert_page_outcome (w : World) (f : File) :
  file w = Some f ->
  let w' := snd (processFile w) in
  let answer :=
    network w {| url := apiUrl (node_env w); method := "POST"; body := f |} in
  fst (processFile w) = Done tt
  /\ isProcessing w' = false
  /\ (forall r d q qs,
         answer = Done r -> ok r = true -> json r = Done d ->
         requirements d = Some (q :: qs) ->
         downloads w'
         = (downloads w
            ++ [ {| Page.download := fileName (now_iso w);
                    Page.blob_type := "application/json";
                    Page.blob := Page.Stringified (q :: qs) |} ])%list
         /\ alerts w'
            = (alerts w
               ++ [msg_done (S (List.length qs)) (fileName (now_iso w))])%list)
  /\ (forall r d,
         answer = Done r -> ok r = true -> json r = Done d ->
         requirements d = None \/ requirements d = Some [] ->
         downloads w' = downloads w
         /\ alerts w' = (alerts w ++ [msg_none])%list)
  /\ (forall e,
         answer = Raise e ->
         downloads w' = downloads w
         /\ alerts w' = (alerts w ++ [msg_failed e])%list)
  /\ (forall r e,
         answer = Done r -> json r = Raise e ->
         downloads w' = downloads w
         /\ alerts w' = (alerts w ++ [msg_failed e])%list)
  /\ (forall r d,
         answer = Done r -> ok r = false -> json r = Done d ->
         downloads w' = downloads w
         /\ alerts w'
            = (alerts w
               ++ [msg_failed
                     (ErrorObj ("Server error: "
                                ++ or_else (Api.error d) (statusText r)))])%list).
Proof.
  destruct w as [wfile wproc wdl wal wreq wcon wenv wnet wnow].
  cbn [file network node_env now_iso downloads alerts]. intros ->. cbv zeta.
  split; [| split; [| split; [| split; [| split; [| split]]]]].
  - alert_run.
    destruct (wnet {| url := apiUrl wenv; method := "POST"; body := f |})
      as [r | ex]; alert_run; [| reflexivity].
    destruct (ok r); cbn [negb]; alert_run;
      destruct (json r) as [d | ex]; alert_run; try reflexivity.
    destruct (requirements d) as [[| q qs] |]; reflexivity.
  - alert_run.
    destruct (wnet {| url := apiUrl wenv; method := "POST"; body := f |})
      as [r | ex]; alert_run; [| reflexivity].
    destruct (ok r); cbn [negb]; alert_run;
      destruct (json r) as [d | ex]; alert_run; try reflexivity.
    destruct (requirements d) as [[| q qs] |]; reflexivity.
  - intros r d q qs Hnet Hok Hjson Hreq. alert_run. rewrite Hnet. alert_run.
    rewrite Hok. cbn [negb]. alert_run. rewrite Hjson. alert_run.
    rewrite Hreq. alert_run. split; reflexivity.
  - intros r d Hnet Hok Hjson Hreq. alert_run. rewrite Hnet. alert_run.
    rewrite Hok. cbn [negb]. alert_run. rewrite Hjson. alert_run.
    destruct Hreq as [-> | ->]; alert_run; split; reflexivity.
  - intros e Hnet. alert_run. rewrite Hnet. alert_run. split; reflexivity.
  - intros r e Hnet Hjson. alert_run. rewrite Hnet. alert_run.
    destruct (ok r); cbn [negb]; alert_run; rewrite Hjson; alert_run;
      split; reflexivity.
  - intros r d Hnet Hok Hjson. alert_run. rewrite Hnet. alert_run.
    rewrite Hok. cbn [negb]. alert_run. rewrite Hjson. alert_run.
    split; reflexivity.
Qed.

Lemma alert_page_outcome_witness :
  (downloads (snd (processFile (selected UploadFormView.full_answer)))
   = [ {| Page.download := "pci_requirements_2024-01-15T10-30-45.json";
          Page.blob_type := "application/json";
          Page.blob := Page.Stringified [UploadFormView.one_requirement] |} ]
   /\ alerts (snd (processFile (selected UploadFormView.full_answer)))
      = [msg_done 1 "pci_requirements_2024-01-15T10-30-45.json"])
  /\ (downloads (snd (processFile (selected UploadForm.empty_answer))) = []
      /\ alerts (snd (processFile (selected UploadForm.empty_answer)))
         = [msg_none])
  /\ (downloads (snd (processFile (selected UploadFormView.failing_answer))) = []
      /\ alerts (snd (processFile (selected UploadFormView.failing_answer)))
         = [msg_failed (ErrorObj "Server error: PDF illisible")]).
Proof.
  split; [| split].
  - exact (proj1 (proj2 (proj2
             (alert_page_outcome (selected UploadFormView.full_answer) _ eq_refl)))
             _ _ _ _ eq_refl eq_refl eq_refl eq_refl).
  - refine (proj1 (proj2 (proj2 (proj2
             (alert_page_outcome (selected UploadForm.empty_answer) _ eq_refl))))
             _ _ eq_refl eq_refl eq_refl _).
    vm_compute. tauto.
  - exact (proj2 (proj2 (proj2 (proj2 (proj2 (proj2
             (alert_page_outcome (selected UploadFormView.failing_answer) _
                eq_refl))))))
             _ _ eq_refl eq_refl eq_refl).
Defined.

Example alert_page_alerts :
  alerts (snd (processFile (selected UploadFormView.full_answer)))
  = [msg_done 1 "pci_requirements_2024-01-15T10-30-45.json"]
  /\ alerts (snd (processFile (selected UploadForm.empty_answer))) = [msg_none]
  /\ alerts (snd (processFile (selected UploadFormView.failing_answer)))
     = ["Erreur lors du traitement du PDF: Server error: PDF illisible"].
Proof. repeat split; vm_compute; reflexivity. Qed.

End AlertPageProperties.
